(** * version_checker: a shallow embedding of [version_checker.py]

    The script looks up the installed version of a package ([pip show]),
    fetches the latest published version from the package index, compares
    the two with [packaging.version.Version] and optionally upgrades.

    Conventions of the embedding.
    - A Python [str] is a Rocq [string]; a character stands for the code
      point of the same number (0..255).
    - Python's [None] for an [Optional[str]] is [None : option string].
    - Everything the script does to the outside (subprocesses, the HTTP
      request, opening the manifest, printing) is an [event] appended to a
      trace; what the outside answers is read from a [World] of oracles
      that may depend on the whole trace so far.
    - A Python exception is a value of [exn]; a computation either
      returns a value or raises, and keeps its trace in both cases. *)

From Stdlib Require Import String Ascii List Bool Arith NArith Lia.
From Stdlib Require Import Numbers.DecimalString.
Import ListNotations.

Local Open Scope list_scope.
Local Open Scope string_scope.

(** ** Python string operations used by the script *)

Module PyStr.

Definition code (c : ascii) : N := N_of_ascii c.

Definition in_range (lo hi c : ascii) : bool :=
  (code lo <=? code c)%N && (code c <=? code hi)%N.

(** [str.isspace] on one character: TAB LF VT FF CR, FS GS RS US,
    SPACE, NEL (0x85) and NBSP (0xA0). *)
Definition is_space (c : ascii) : bool :=
  in_range "009" "013" c || in_range "028" "032" c
  || (code c =? 133)%N || (code c =? 160)%N.

(** Line boundaries of [str.splitlines]: LF VT FF CR, FS GS RS, NEL. *)
Definition is_linebreak (c : ascii) : bool :=
  in_range "010" "013" c || in_range "028" "030" c || (code c =? 133)%N.

Fixpoint lstrip (s : string) : string :=
  match s with
  | String c s' => if is_space c then lstrip s' else s
  | EmptyString => EmptyString
  end.

(** [rstrip] keeps a character when it is not white space or when
    something remains to its right after stripping. *)
Fixpoint rstrip (s : string) : string :=
  match s with
  | String c s' =>
      match rstrip s' with
      | EmptyString => if is_space c then EmptyString else String c EmptyString
      | r => String c r
      end
  | EmptyString => EmptyString
  end.

(** [s.strip()] *)
Definition strip (s : string) : string := rstrip (lstrip s).

(** [s.startswith(p)] *)
Fixpoint startswith (p s : string) : bool :=
  match p, s with
  | EmptyString, _ => true
  | String a p', String b s' => Ascii.eqb a b && startswith p' s'
  | String _ _, EmptyString => false
  end.

(** [s.split(sep, 1)] for a one-character separator: the text before the
    first separator and, when there is one, the text after it. *)
Fixpoint split_once (sep : ascii) (s : string) : string * option string :=
  match s with
  | EmptyString => (EmptyString, None)
  | String c s' =>
      if Ascii.eqb c sep then (EmptyString, Some s')
      else let '(a, b) := split_once sep s' in (String c a, b)
  end.

(** [s.splitlines()]: [cur] is the current line, reversed. CR LF counts
    as one boundary and there is no empty last line. *)
Fixpoint rev_string (acc s : string) : string :=
  match s with
  | EmptyString => acc
  | String c s' => rev_string (String c acc) s'
  end.

Fixpoint splitlines_from (cur s : string) : list string :=
  match s with
  | EmptyString =>
      match cur with
      | EmptyString => []
      | _ => [rev_string EmptyString cur]
      end
  | String c s' =>
      if Ascii.eqb c "013" then
        match s' with
        | String "010" s'' => rev_string EmptyString cur :: splitlines_from EmptyString s''
        | _ => rev_string EmptyString cur :: splitlines_from EmptyString s'
        end
      else if is_linebreak c then rev_string EmptyString cur :: splitlines_from EmptyString s'
      else splitlines_from (String c cur) s'
  end.

Definition splitlines (s : string) : list string := splitlines_from EmptyString s.

(** Iterating a file opened in text mode: each line keeps its final
    LF; the last line may lack one. *)
Fixpoint file_lines_from (cur s : string) : list string :=
  match s with
  | EmptyString =>
      match cur with
      | EmptyString => []
      | _ => [rev_string EmptyString cur]
      end
  | String c s' =>
      if Ascii.eqb c "010" then
        rev_string EmptyString (String c cur) :: file_lines_from EmptyString s'
      else file_lines_from (String c cur) s'
  end.

Definition file_lines (s : string) : list string := file_lines_from EmptyString s.

(** [str(n)] for a non-negative [int] *)
Definition of_nat (n : nat) : string := NilZero.string_of_uint (Nat.to_uint n).

End PyStr.

(** ** A backtracking matcher for the regular expressions of the script

    The matcher follows Python's [re]: alternatives are tried left to
    right, a greedy star tries one more iteration before it tries to go
    on, a lazy star the other way round, and the first complete match
    wins.  Groups record the text they matched last. *)

Module Regex.

Inductive regex : Type :=
| Eps
| Cls (p : ascii -> bool)               (* one character of a class *)
| Seq (r1 r2 : regex)
| Alt (r1 r2 : regex)                   (* r1|r2 *)
| Star (greedy : bool) (r : regex)      (* r* and r*? *)
| Group (n : nat) (r : regex)           (* capturing group number n *)
| Bol                                   (* ^ *)
| Eol.                                  (* $ *)

(** Captured groups, most recent first. *)
Definition caps := list (nat * string).

Record mstate : Type := MState {
  pos : nat;          (* characters consumed so far *)
  rest : string;      (* what is left of the subject *)
  groups : caps
}.

Definition advance (st : mstate) (s' : string) : mstate :=
  MState (S (pos st)) s' (groups st).

Fixpoint take (n : nat) (s : string) : string :=
  match n, s with
  | S n', String c s' => String c (take n' s')
  | _, _ => EmptyString
  end.

Definition close_group (n : nat) (st0 st1 : mstate) : mstate :=
  MState (pos st1) (rest st1)
         ((n, take (pos st1 - pos st0) (rest st0)) :: groups st1).

Definition orelse {A} (a b : option A) : option A :=
  match a with Some x => Some x | None => b end.

(** [$] without MULTILINE: at the end, or just before a final LF. *)
Definition at_eol (s : string) : bool :=
  match s with
  | EmptyString => true
  | String "010" EmptyString => true
  | _ => false
  end.

Definition matcher := mstate -> (mstate -> option caps) -> option caps.

(** [r*] and [r*?] for a body matched by [m].  The loop iterates at
    most [n = length (rest st)] times: an iteration that consumes
    nothing is not taken, so none is ever cut short. *)
Fixpoint star_loop (greedy : bool) (m : matcher) (k : mstate -> option caps)
  (n : nat) (st : mstate) {struct n} : option caps :=
  let again :=
    match n with
    | O => None
    | S n' =>
        m st (fun st' =>
          if Nat.ltb (String.length (rest st')) (String.length (rest st))
          then star_loop greedy m k n' st' else None)
    end in
  if greedy then orelse again (k st) else orelse (k st) again.

Fixpoint rmatch (r : regex) (st : mstate) (k : mstate -> option caps)
  {struct r} : option caps :=
  match r with
  | Eps => k st
  | Cls p =>
      match rest st with
      | String c s' => if p c then k (advance st s') else None
      | EmptyString => None
      end
  | Seq r1 r2 => rmatch r1 st (fun st' => rmatch r2 st' k)
  | Alt r1 r2 => orelse (rmatch r1 st k) (rmatch r2 st k)
  | Star greedy r1 =>
      star_loop greedy (rmatch r1) k (String.length (rest st)) st
  | Group n r1 => rmatch r1 st (fun st' => k (close_group n st st'))
  | Bol => if Nat.eqb (pos st) 0 then k st else None
  | Eol => if at_eol (rest st) then k st else None
  end.

(** [pattern.match(s)]: match at the start of [s]; [None] is no match. *)
Definition re_match (r : regex) (s : string) : option caps :=
  rmatch r (MState 0 s []) (fun st => Some (groups st)).

(** [m.group(n)]: [None] when the group took no part in the match. *)
Fixpoint group (m : caps) (n : nat) : option string :=
  match m with
  | [] => None
  | (i, s) :: m' => if Nat.eqb i n then Some s else group m' n
  end.

Definition Opt (r : regex) : regex := Alt r Eps.            (* r? *)
Definition Plus (r : regex) : regex := Seq r (Star true r). (* r+ *)
Definition Chr (c : ascii) : regex := Cls (Ascii.eqb c).

End Regex.

Import Regex.

(** ** The two patterns of the script *)

Definition is_alnum (c : ascii) : bool :=                     (* [A-Za-z0-9] *)
  PyStr.in_range "A" "Z" c || PyStr.in_range "a" "z" c || PyStr.in_range "0" "9" c.

Definition is_name_char (c : ascii) : bool :=                 (* [A-Za-z0-9._-] *)
  PyStr.in_range "A" "Z" c || PyStr.in_range "a" "z" c || PyStr.in_range "0" "9" c
  || Ascii.eqb c "." || Ascii.eqb c "_" || Ascii.eqb c "-".

(** [[A-Za-z0-9]([A-Za-z0-9._-]*[A-Za-z0-9])?], the part both patterns
    share; [g] numbers the inner group. *)
Definition name_body (g : nat) : regex :=
  Seq (Cls is_alnum)
      (Opt (Group g (Seq (Star true (Cls is_name_char)) (Cls is_alnum)))).

(** [_VALID_PACKAGE_NAME = ^[A-Za-z0-9]([A-Za-z0-9._-]*[A-Za-z0-9])?$] *)
Definition _VALID_PACKAGE_NAME : regex :=
  Seq Bol (Seq (name_body 1) Eol).

(** [(\[.*?\])]: the dot matches anything but a line feed. *)
Definition extras : regex :=
  Group 3 (Seq (Chr "[")
          (Seq (Star false (Cls (fun c => negb (Ascii.eqb c "010"))))
               (Chr "]"))).

(** [_REQUIREMENT_LINE =
     ^([A-Za-z0-9]([A-Za-z0-9._-]*[A-Za-z0-9])?)(\[.*?\])?[^;]*] *)
Definition _REQUIREMENT_LINE : regex :=
  Seq Bol
 (Seq (Group 1 (name_body 2))
 (Seq (Opt extras)
      (Star true (Cls (fun c => negb (Ascii.eqb c ";")))))).

(** ** The version library

    [check_package] compares [Version(installed) < Version(latest)] with
    the class [Version] of the third-party package [packaging]; the script
    only needs a constructor that may reject its argument and a strict
    order. *)

Class VersionLib : Type := {
  vtype : Type;
  Version : string -> option vtype;         (* [None]: raises InvalidVersion *)
  version_lt : vtype -> vtype -> bool       (* [a < b] *)
}.

(** Modelled from the spec: [packaging.version.Version] is imported by
    the script and is not among the repository's sources.  This is the
    version ordering the spec names (PEP 440: epoch, release segments
    compared as numbers, pre-, post- and dev-release qualifiers, local
    version), written after the grammar and the sort key of that
    library. *)
Module Pep440.

Definition is_digit (c : ascii) : bool := PyStr.in_range "0" "9" c.
Definition is_sep (c : ascii) : bool :=                     (* [-_\.] *)
  Ascii.eqb c "-" || Ascii.eqb c "_" || Ascii.eqb c ".".

Definition lower (c : ascii) : ascii :=
  if PyStr.in_range "A" "Z" c then ascii_of_N (PyStr.code c + 32) else c.

Fixpoint lower_string (s : string) : string :=
  match s with
  | EmptyString => EmptyString
  | String c s' => String (lower c) (lower_string s')
  end.

(** The pattern is compiled with IGNORECASE. *)
Definition Chr_i (c : ascii) : regex := Cls (fun x => Ascii.eqb (lower x) c).

Fixpoint Lit_i (s : string) : regex :=
  match s with
  | EmptyString => Eps
  | String c s' => Seq (Chr_i c) (Lit_i s')
  end.

Definition is_local_char (c : ascii) : bool :=              (* [a-z0-9] *)
  PyStr.in_range "a" "z" (lower c) || is_digit c.

Definition digits : regex := Plus (Cls is_digit).
Definition sep : regex := Opt (Cls is_sep).
Definition spaces : regex := Star true (Cls PyStr.is_space).

Fixpoint alts (l : list string) : regex :=
  match l with
  | [] => Cls (fun _ => false)
  | [s] => Lit_i s
  | s :: l' => Alt (Lit_i s) (alts l')
  end.

(** Groups: 1 epoch, 2 release, 3 pre, 4 pre_l, 5 pre_n, 6 post,
    7 post_n1, 8 post_l, 9 post_n2, 10 dev, 11 dev_l, 12 dev_n,
    13 local. *)
Definition VERSION_PATTERN : regex :=
  Seq Bol (Seq spaces
 (Seq (Opt (Chr_i "v"))
 (Seq (Opt (Seq (Group 1 digits) (Chr "!")))
 (Seq (Group 2 (Seq digits (Star true (Seq (Chr ".") digits))))
 (Seq (Opt (Group 3
        (Seq sep
        (Seq (Group 4 (alts ["alpha"; "a"; "beta"; "b"; "preview"; "pre"; "c"; "rc"]))
        (Seq sep (Opt (Group 5 digits)))))))
 (Seq (Opt (Group 6
        (Alt (Seq (Chr "-") (Group 7 digits))
             (Seq sep
             (Seq (Group 8 (alts ["post"; "rev"; "r"]))
             (Seq sep (Opt (Group 9 digits))))))))
 (Seq (Opt (Group 10
        (Seq sep
        (Seq (Group 11 (Lit_i "dev"))
        (Seq sep (Opt (Group 12 digits)))))))
 (Seq (Opt (Seq (Chr "+")
        (Group 13 (Seq (Plus (Cls is_local_char))
                       (Star true (Seq (Cls is_sep) (Plus (Cls is_local_char))))))))
 (Seq spaces Eol))))))))).

(** [int(s)] for a string of decimal digits *)
Definition digit_val (c : ascii) : N := (PyStr.code c - 48)%N.

Fixpoint int_from (acc : N) (s : string) : N :=
  match s with
  | EmptyString => acc
  | String c s' => int_from (10 * acc + digit_val c)%N s'
  end.

Definition int (s : string) : N := int_from 0%N s.

Fixpoint all_digits (s : string) : bool :=
  match s with
  | EmptyString => true
  | String c s' => is_digit c && all_digits s'
  end.

(** [s.split(".")] and the split of a local version on [._-] *)
Fixpoint split_on (p : ascii -> bool) (cur s : string) : list string :=
  match s with
  | EmptyString => [PyStr.rev_string EmptyString cur]
  | String c s' =>
      if p c then PyStr.rev_string EmptyString cur :: split_on p EmptyString s'
      else split_on p (String c cur) s'
  end.

Inductive local_seg : Type :=
| LNum (n : N)
| LStr (s : string).

Record version : Type := MkVersion {
  epoch : N;
  release : list N;
  pre : option (string * N);
  post : option (string * N);
  dev : option (string * N);
  local : option (list local_seg)
}.

Definition string_in (s : string) (l : list string) : bool :=
  existsb (String.eqb s) l.

Definition _parse_letter_version (letter number : option string)
  : option (string * N) :=
  match letter with
  | Some l =>
      let n := match number with Some d => int d | None => 0%N end in
      let l := lower_string l in
      let l := if String.eqb l "alpha" then "a"
               else if String.eqb l "beta" then "b"
               else if string_in l ["c"; "pre"; "preview"] then "rc"
               else if string_in l ["rev"; "r"] then "post"
               else l in
      Some (l, n)
  | None =>
      match number with
      | Some d => Some ("post", int d)
      | None => None
      end
  end.

Definition _parse_local_version (loc : option string) : option (list local_seg) :=
  match loc with
  | Some l =>
      Some (map (fun part => if all_digits part then LNum (int part)
                             else LStr (lower_string part))
                (split_on is_sep EmptyString l))
  | None => None
  end.

Definition parse (s : string) : option version :=
  match re_match VERSION_PATTERN s with
  | None => None
  | Some m =>
      Some {|
        epoch := match group m 1 with Some e => int e | None => 0%N end;
        release := match group m 2 with
                   | Some r => map int (split_on (Ascii.eqb ".") EmptyString r)
                   | None => []
                   end;
        pre := _parse_letter_version (group m 4) (group m 5);
        post := _parse_letter_version (group m 8)
                  (match group m 7 with Some n => Some n | None => group m 9 end);
        dev := _parse_letter_version (group m 11) (group m 12);
        local := _parse_local_version (group m 13)
      |}
  end.

(** The sort key.  [Infinity] and [NegativeInfinity] of the library
    are [PosInf] and [NegInf]. *)
Inductive ext (A : Type) : Type :=
| NegInf
| Fin (a : A)
| PosInf.
Arguments NegInf {A}.
Arguments Fin {A} a.
Arguments PosInf {A}.

Definition ext_compare {A} (cmp : A -> A -> comparison) (x y : ext A) : comparison :=
  match x, y with
  | NegInf, NegInf => Eq
  | NegInf, _ => Lt
  | _, NegInf => Gt
  | PosInf, PosInf => Eq
  | PosInf, _ => Gt
  | _, PosInf => Lt
  | Fin a, Fin b => cmp a b
  end.

Definition lex (c1 c2 : comparison) : comparison :=
  match c1 with Eq => c2 | _ => c1 end.

Definition pair_compare {A B} (ca : A -> A -> comparison) (cb : B -> B -> comparison)
  (x y : A * B) : comparison :=
  lex (ca (fst x) (fst y)) (cb (snd x) (snd y)).

(** Tuples of any length: the first difference decides, a proper
    prefix is smaller. *)
Fixpoint list_compare {A} (cmp : A -> A -> comparison) (x y : list A) : comparison :=
  match x, y with
  | [], [] => Eq
  | [], _ :: _ => Lt
  | _ :: _, [] => Gt
  | a :: x', b :: y' => lex (cmp a b) (list_compare cmp x' y')
  end.

Fixpoint drop_zeros (l : list N) : list N :=               (* leading zeros *)
  match l with
  | 0%N :: l' => drop_zeros l'
  | _ => l
  end.

Record key : Type := MkKey {
  k_epoch : N;
  k_release : list N;
  k_pre : ext (string * N);
  k_post : ext (string * N);
  k_dev : ext (string * N);
  k_local : ext (list (ext N * string))
}.

Definition _cmpkey (v : version) : key :=
  {| k_epoch := epoch v;
     k_release := rev (drop_zeros (rev (release v)));
     k_pre := match pre v, post v, dev v with
              | None, None, Some _ => NegInf
              | None, _, _ => PosInf
              | Some p, _, _ => Fin p
              end;
     k_post := match post v with None => NegInf | Some p => Fin p end;
     k_dev := match dev v with None => PosInf | Some d => Fin d end;
     k_local := match local v with
                | None => NegInf
                | Some l => Fin (map (fun i => match i with
                                               | LNum n => (Fin n, EmptyString)
                                               | LStr s => (NegInf, s)
                                               end) l)
                end |}.

Definition tag_compare : string * N -> string * N -> comparison :=
  pair_compare String.compare N.compare.

Definition key_compare (a b : key) : comparison :=
  lex (N.compare (k_epoch a) (k_epoch b))
 (lex (list_compare N.compare (k_release a) (k_release b))
 (lex (ext_compare tag_compare (k_pre a) (k_pre b))
 (lex (ext_compare tag_compare (k_post a) (k_post b))
 (lex (ext_compare tag_compare (k_dev a) (k_dev b))
      (ext_compare
         (list_compare (pair_compare (ext_compare N.compare) String.compare))
         (k_local a) (k_local b)))))).

Definition lt (a b : version) : bool :=
  match key_compare (_cmpkey a) (_cmpkey b) with
  | Lt => true
  | _ => false
  end.

End Pep440.

#[export] Instance pep440 : VersionLib := {|
  vtype := Pep440.version;
  Version := Pep440.parse;
  version_lt := Pep440.lt
|}.

(** ** Exceptions, values and the outside world *)

Inductive exn : Type :=
| CalledProcessError          (* subprocess: non-zero exit with check=True *)
| URLError                    (* urllib.error.URLError *)
| HTTPError                   (* urllib.error.HTTPError, a URLError *)
| JSONDecodeError             (* json.JSONDecodeError *)
| KeyError
| TypeError
| FileNotFoundError
| InvalidVersion              (* packaging.version.InvalidVersion *)
| OtherError (name : string). (* any class outside the ones above *)

(** [isinstance(e, cls)] for the classes the script names in an
    [except] clause. *)
Definition isinstance (e cls : exn) : bool :=
  match cls, e with
  | CalledProcessError, CalledProcessError => true
  | URLError, (URLError | HTTPError) => true
  | HTTPError, HTTPError => true
  | JSONDecodeError, JSONDecodeError => true
  | KeyError, KeyError => true
  | TypeError, TypeError => true
  | FileNotFoundError, FileNotFoundError => true
  | InvalidVersion, InvalidVersion => true
  | OtherError a, OtherError b => String.eqb a b
  | _, _ => false
  end.

Inductive result (A : Type) : Type :=
| Ok (a : A)
| Raise (e : exn).
Arguments Ok {A} a.
Arguments Raise {A} e.

(** What [json.loads] returns: Python objects. [VNone] is [None]. *)
#[warnings="-register-all"]
Inductive value : Type :=
| VNone
| VBool (b : bool)
| VNum (literal : string)
| VStr (s : string)
| VList (l : list value)
| VDict (items : list (string * value)).   (* keys are distinct *)

Fixpoint dict_get (key : string) (items : list (string * value)) : option value :=
  match items with
  | [] => None
  | (k, v) :: items' => if String.eqb k key then Some v else dict_get key items'
  end.

(** [obj[key]] for a string key: only a dict can be indexed with one. *)
Definition getitem (obj : value) (key : string) : result value :=
  match obj with
  | VDict items =>
      match dict_get key items with
      | Some v => Ok v
      | None => Raise KeyError
      end
  | _ => Raise TypeError
  end.

Inductive event : Type :=
| Print (line : string)          (* print(line) *)
| PipShow (package : string)     (* python -m pip show package *)
| PipInstall (package : string)  (* python -m pip install --upgrade package *)
| UrlOpen (url : string)         (* urllib.request.urlopen(url, timeout=10) *)
| OpenFile (path : string).      (* open(path) *)

Definition trace := list event.

(** The answers of the outside, each as a function of what happened
    before the call.
    - [pip_show]: the captured standard output, or the exception of
      [subprocess.run] ([CalledProcessError] for a non-zero exit);
    - [pip_install]: normal termination or the exception;
    - [fetch_json]: what [json.loads(response.read().decode())] yields
      for the response to the request, or the exception raised on the
      way (by [urlopen], [read], [decode] or [json.loads]);
    - [open_text]: the text of the file, or the exception of [open]. *)
Record World : Type := {
  pip_show : trace -> string -> result string;
  pip_install : trace -> string -> result unit;
  fetch_json : trace -> string -> result value;
  open_text : trace -> string -> result string
}.

(** Computations: from the trace so far to an outcome and the trace
    after. *)
Definition M (A : Type) : Type := trace -> result A * trace.

Definition ret {A} (a : A) : M A := fun t => (Ok a, t).
Definition raise {A} (e : exn) : M A := fun t => (Raise e, t).

Definition bind {A B} (c : M A) (f : A -> M B) : M B :=
  fun t =>
    match c t with
    | (Ok a, t') => f a t'
    | (Raise e, t') => (Raise e, t')
    end.

Notation "x <- c ;; k" := (bind c (fun x => k))
  (at level 61, c at next level, right associativity).
Notation "c ;; k" := (bind c (fun _ => k))
  (at level 61, right associativity).

(** [try: c  except <classes>: h] *)
Definition try_except {A} (c : M A) (classes : list exn) (h : M A) : M A :=
  fun t =>
    match c t with
    | (Ok a, t') => (Ok a, t')
    | (Raise e, t') =>
        if existsb (isinstance e) classes then h t' else (Raise e, t')
    end.

Definition print (line : string) : M unit :=
  fun t => (Ok tt, (t ++ [Print line])%list).

(** A call to the outside: log the event, then read the answer for the
    trace before the call. *)
Definition call {A} (ev : event) (answer : trace -> result A) : M A :=
  fun t => (answer t, (t ++ [ev])%list).

(** ** The script *)

Record CheckResult : Type := MkResult {
  package : string;
  installed : option string;
  latest : value;
  update_available : bool;
  updated : bool
}.

Definition set_installed (r : CheckResult) (v : option string) : CheckResult :=
  MkResult (package r) v (latest r) (update_available r) (updated r).
Definition set_latest (r : CheckResult) (v : value) : CheckResult :=
  MkResult (package r) (installed r) v (update_available r) (updated r).
Definition set_update_available (r : CheckResult) (b : bool) : CheckResult :=
  MkResult (package r) (installed r) (latest r) b (updated r).
Definition set_updated (r : CheckResult) (b : bool) : CheckResult :=
  MkResult (package r) (installed r) (latest r) (update_available r) b.

(** Command-line arguments after [parse_args]: [--package] and
    [--requirements] exclude each other and one of them is given. *)
Record Args : Type := MkArgs {
  arg_package : option string;
  arg_requirements : option string;
  arg_update : bool
}.

Definition nl : string := String "010" EmptyString.

(** [f"https://pypi.org/pypi/{package}/json"] *)
Definition index_url (package : string) : string :=
  "https://pypi.org/pypi/" ++ package ++ "/json".

Section Script.

Context {VL : VersionLib}.
Variable w : World.

(** The body of the [for] loop over [result.stdout.splitlines()]. *)
Fixpoint find_version (lines : list string) : option string :=
  match lines with
  | [] => None
  | line :: lines' =>
      if PyStr.startswith "Version:" line then
        match snd (PyStr.split_once ":" line) with
        | Some v => Some (PyStr.strip v)
        | None => None        (* not reached: the line has a colon *)
        end
      else find_version lines'
  end.

Definition get_installed_version (package : string) : M (option string) :=
  try_except
    (out <- call (PipShow package) (fun t => pip_show w t package) ;;
     ret (find_version (PyStr.splitlines out)))
    [CalledProcessError]
    (ret None).

Definition matches (r : regex) (s : string) : bool :=
  match re_match r s with Some _ => true | None => false end.

(** The value returned is whatever [data["info"]["version"]] is;
    [VNone] stands for the [None] of the early return and of the
    handler as well. *)
Definition get_latest_version (package : string) : M value :=
  if negb (matches _VALID_PACKAGE_NAME package) then ret VNone
  else
    let url := index_url package in
    try_except
      (data <- call (UrlOpen url) (fun t => fetch_json w t url) ;;
       info <- (fun t => (getitem data "info", t)) ;;
       (fun t => (getitem info "version", t)))
      [URLError; JSONDecodeError; KeyError]
      (ret VNone).

Definition update_package (package : string) : M bool :=
  try_except
    (call (PipInstall package) (fun t => pip_install w t package) ;;
     ret true)
    [CalledProcessError]
    (ret false).

(** [Version(s)] *)
Definition new_Version (s : string) : M vtype :=
  match Version s with
  | Some v => ret v
  | None => raise InvalidVersion
  end.

(** In [Version(installed) < Version(latest)] the left operand is
    built first; [Version] applied to an object that is not a string
    raises [TypeError]. *)
Definition check_package (package : string) (do_update : bool) : M CheckResult :=
  let result := MkResult package None VNone false false in
  installed <- get_installed_version package ;;
  let result := set_installed result installed in
  match installed with
  | None =>
      print ("  " ++ package ++ ": not installed") ;;
      ret result
  | Some installed =>
      latest <- get_latest_version package ;;
      let result := set_latest result latest in
      match latest with
      | VNone =>
          print ("  " ++ package ++ ": could not fetch latest version") ;;
          ret result
      | _ =>
          vi <- new_Version installed ;;
          match latest with
          | VStr latest =>
              vl <- new_Version latest ;;
              if version_lt vi vl then
                let result := set_update_available result true in
                print ("  " ++ package ++ ": " ++ installed ++ " -> " ++ latest
                       ++ " (update available)") ;;
                if do_update then
                  success <- update_package package ;;
                  let result := set_updated result success in
                  (if success
                   then print ("  " ++ package ++ ": updated successfully to " ++ latest)
                   else print ("  " ++ package ++ ": update failed")) ;;
                  ret result
                else ret result
              else
                print ("  " ++ package ++ ": " ++ installed ++ " (up to date)") ;;
                ret result
          | _ => raise TypeError
          end
      end
  end.

(** The loop that fills [packages]; [match.group(1)] is appended as it
    is. *)
Fixpoint read_packages (lines : list string) (packages : list (option string))
  : list (option string) :=
  match lines with
  | [] => packages
  | line :: lines' =>
      let line := PyStr.strip line in
      if String.eqb line EmptyString || PyStr.startswith "#" line then
        read_packages lines' packages
      else
        match re_match _REQUIREMENT_LINE line with
        | Some m => read_packages lines' (packages ++ [group m 1])
        | None => read_packages lines' packages
        end
  end.

(** [if package:] *)
Definition truthy (p : option string) : option string :=
  match p with
  | Some EmptyString => None
  | p => p
  end.

Fixpoint check_each (packages : list (option string)) (do_update : bool)
  (results : list CheckResult) : M (list CheckResult) :=
  match packages with
  | [] => ret results
  | p :: packages' =>
      match truthy p with
      | Some name =>
          r <- check_package name do_update ;;
          check_each packages' do_update (results ++ [r])
      | None => check_each packages' do_update results
      end
  end.

Definition check_requirements_file (filepath : string) (do_update : bool)
  : M (list CheckResult) :=
  let results := [] in
  opened <- try_except
              (text <- call (OpenFile filepath) (fun t => open_text w t filepath) ;;
               ret (Some (read_packages (PyStr.file_lines text) [])))
              [FileNotFoundError]
              (print ("Error: requirements file '" ++ filepath ++ "' not found.") ;;
               ret None) ;;
  match opened with
  | None => ret results
  | Some packages => check_each packages do_update results
  end.

(** [sum(1 for r in results if r["update_available"])] *)
Fixpoint count_updates (results : list CheckResult) (acc : nat) : nat :=
  match results with
  | [] => acc
  | r :: results' =>
      count_updates results' (if update_available r then acc + 1 else acc)
  end.

(** The first half of [main]: which packages are checked. With
    [--package] given as the empty string the [else] branch runs and
    [open(None)] raises [TypeError]. *)
Definition collect (args : Args) : M (list CheckResult) :=
  print "Checking for updates..." ;;
  match truthy (arg_package args) with
  | Some name =>
      r <- check_package name (arg_update args) ;;
      ret [r]
  | None =>
      match arg_requirements args with
      | Some file => check_requirements_file file (arg_update args)
      | None => raise TypeError
      end
  end.

(** The second half of [main]: the summary. *)
Definition summarize (results : list CheckResult) (update : bool) : M unit :=
  let updates_available := count_updates results 0 in
  if negb (Nat.eqb updates_available 0) then
    print (nl ++ PyStr.of_nat updates_available ++ " update(s) available.") ;;
    if negb update then print "Run with --update to apply updates."
    else ret tt
  else
    print (nl ++ "All packages are up to date.").

Definition main (args : Args) : M unit :=
  results <- collect args ;;
  summarize results (arg_update args).

End Script.

(** ** The name pattern in the words of the specification

    "One alphanumeric character optionally followed by characters from
    [A-Za-z0-9._-] ending in an alphanumeric." *)

Fixpoint all_chars (p : ascii -> bool) (s : string) : bool :=
  match s with
  | EmptyString => true
  | String c s' => p c && all_chars p s'
  end.

Fixpoint last_char (s : string) : option ascii :=
  match s with
  | EmptyString => None
  | String c EmptyString => Some c
  | String _ s' => last_char s'
  end.

Definition spec_valid_name (s : string) : bool :=
  match s with
  | EmptyString => false
  | String c EmptyString => is_alnum c
  | String c t =>
      is_alnum c && all_chars is_name_char t
      && match last_char t with Some d => is_alnum d | None => false end
  end.

(** What may follow the name on a requirement line: nothing, or a
    character that cannot continue a name (an extras bracket, a version
    operator, the semicolon of an environment marker, a blank). *)
Definition ends_name (tail : string) : bool :=
  match tail with
  | EmptyString => true
  | String c _ => negb (is_name_char c)
  end.

(** The group numbers of a pattern. *)
Fixpoint group_ids (r : regex) : list nat :=
  match r with
  | Seq r1 r2 | Alt r1 r2 => group_ids r1 ++ group_ids r2
  | Star _ r1 => group_ids r1
  | Group n r1 => n :: group_ids r1
  | _ => []
  end.

(** [g'] is [g] with captures of the groups [ids] put in front. *)
Definition grows (ids : list nat) (g g' : caps) : Prop :=
  exists new, g' = (new ++ g)%list /\ Forall (fun e => In (fst e) ids) new.

(** The continuation that ends a match. *)
Definition final : mstate -> option caps := fun st => Some (groups st).

(** ** Sample worlds, for concrete runs

    The outside answers the same whatever happened before. *)

Definition world_of (show : result string) (install : result unit)
  (reply : result value) (file : result string) : World := {|
  pip_show := fun _ _ => show;
  pip_install := fun _ _ => install;
  fetch_json := fun _ _ => reply;
  open_text := fun _ _ => file
|}.

(** The output of [pip show] for an installed package. *)
Definition show_output (version : string) : string :=
  "Name: demo" ++ nl ++ "Version: " ++ version ++ nl ++ "Summary: a package" ++ nl.

(** The document the index serves: an object with [info.version]. *)
Definition index_reply (version : string) : value :=
  VDict [("info", VDict [("version", VStr version)])].

(** A package installed at [installed] whose latest release is [latest];
    upgrades succeed and the manifest reads [manifest]. *)
Definition sample_world (installed latest manifest : string) : World :=
  world_of (Ok (show_output installed)) (Ok tt) (Ok (index_reply latest)) (Ok manifest).

(** The requirement line of the specification's example:
    requests[security]>=2.0; python_version>="3.6" *)
Definition example_line : string :=
  "requests[security]>=2.0; python_version>=" ++ String "034" ("3.6" ++ String "034" EmptyString).

(** A manifest with a comment, an empty line and the example line. *)
Definition example_manifest : string :=
  "# pinned for the release" ++ nl ++ nl ++ example_line ++ nl.

(** ** Vocabulary of the further properties *)

(** The names that pass [if package:], in order. *)
Definition package_names (packages : list (option string)) : list string :=
  flat_map (fun p => match truthy p with Some name => [name] | None => [] end)
           packages.

(** A manifest line whose text, once stripped, begins with
    [[A-Za-z0-9]]. *)
Definition starts_requirement (line : string) : bool :=
  match PyStr.strip line with
  | String c _ => is_alnum c
  | EmptyString => false
  end.

(** The characters of a name that passes [_VALID_PACKAGE_NAME]. *)
Definition guarded_char (c : ascii) : bool :=
  is_name_char c || Ascii.eqb c "010".

Definition first_char (s : string) : option ascii :=
  match s with
  | String c _ => Some c
  | EmptyString => None
  end.

(** No white space at either end. *)
Definition trimmed (s : string) : bool :=
  match first_char s, last_char s with
  | Some c, Some d => negb (PyStr.is_space c) && negb (PyStr.is_space d)
  | _, _ => true
  end.

(** * Properties *)

(** ** Strings *)

Lemma append_nil_r (s : string) : s ++ EmptyString = s.
Proof. induction s as [|c s IH]; simpl; [reflexivity | now rewrite IH]. Qed.

Lemma append_assoc (a b c : string) : (a ++ b) ++ c = a ++ (b ++ c).
Proof. induction a as [|x a IH]; simpl; [reflexivity | now rewrite IH]. Qed.

Lemma length_append (a b : string) :
  String.length (a ++ b) = String.length a + String.length b.
Proof. induction a as [|x a IH]; simpl; [reflexivity | now rewrite IH]. Qed.

Lemma take_append (a b : string) : take (String.length a) (a ++ b) = a.
Proof. induction a as [|x a IH]; simpl; [now destruct b | now rewrite IH]. Qed.

Lemma alnum_is_name_char (c : ascii) : is_alnum c = true -> is_name_char c = true.
Proof.
  unfold is_alnum, is_name_char. intros H. rewrite H. reflexivity.
Qed.

(** ** The matcher *)

Lemma grows_refl ids g : grows ids g g.
Proof. exists []. split; [reflexivity | constructor]. Qed.

Lemma grows_trans ids1 ids2 g1 g2 g3 :
  grows ids1 g1 g2 -> grows ids2 g2 g3 -> grows (ids1 ++ ids2) g1 g3.
Proof.
  intros (n1 & -> & F1) (n2 & -> & F2). exists (n2 ++ n1)%list. split.
  - now rewrite app_assoc.
  - apply Forall_app. split.
    + eapply Forall_impl; [| exact F2]. intros e He. apply in_or_app. now right.
    + eapply Forall_impl; [| exact F1]. intros e He. apply in_or_app. now left.
Qed.

Lemma grows_weaken ids ids' g g' :
  incl ids ids' -> grows ids g g' -> grows ids' g g'.
Proof.
  intros Hi (new & -> & F). exists new. split; [reflexivity |].
  eapply Forall_impl; [| exact F]. intros e He. now apply Hi.
Qed.

Lemma grows_group ids g g' n :
  grows ids g g' -> ~ In n ids -> group g' n = group g n.
Proof.
  intros (new & -> & F) Hn. induction F as [| [i s] new Hi F IH]; simpl.
  - reflexivity.
  - destruct (Nat.eqb_spec i n) as [-> | _]; [now elim Hn | exact IH].
Qed.

(** A successful match went through its continuation, and on the way
    only the groups of the pattern were captured. *)
Lemma star_loop_grows greedy (m : matcher) ids k :
  (forall st k' c, m st k' = Some c ->
     exists st', k' st' = Some c /\ grows ids (groups st) (groups st')) ->
  forall n st c, star_loop greedy m k n st = Some c ->
     exists st', k st' = Some c /\ grows ids (groups st) (groups st').
Proof.
  intros Hm. induction n as [| n IH]; intros st c H; simpl in H.
  - destruct greedy; simpl in H.
    + exists st. split; [exact H | apply grows_refl].
    + destruct (k st) eqn:E; simpl in H; [| discriminate].
      exists st. split; [congruence | apply grows_refl].
  - set (again := m st _) in H.
    assert (Hagain : forall c, again = Some c ->
              exists st', k st' = Some c /\ grows ids (groups st) (groups st')).
    { intros c0 E. apply Hm in E. destruct E as (st1 & E & G1).
      destruct (Nat.ltb _ _); [| discriminate].
      apply IH in E. destruct E as (st2 & E & G2).
      exists st2. split; [exact E |].
      eapply grows_weaken; [| exact (grows_trans _ _ _ _ _ G1 G2)].
      intros x Hx. apply in_app_or in Hx. tauto. }
    destruct greedy.
    + destruct again as [c0 |] eqn:E; simpl in H.
      * apply Hagain. congruence.
      * exists st. split; [exact H | apply grows_refl].
    + destruct (k st) as [c0 |] eqn:E; simpl in H.
      * exists st. split; [congruence | apply grows_refl].
      * now apply Hagain.
Qed.

Lemma rmatch_grows (r : regex) :
  forall st k c, rmatch r st k = Some c ->
    exists st', k st' = Some c /\ grows (group_ids r) (groups st) (groups st').
Proof.
  induction r as [| p | r1 IH1 r2 IH2 | r1 IH1 r2 IH2 | g r1 IH1 | n r1 IH1 | |];
    intros st k c H; simpl in H.
  - exists st. split; [exact H | apply grows_refl].
  - destruct (rest st) as [| x s'] eqn:E; [discriminate |].
    destruct (p x); [| discriminate].
    exists (advance st s'). split; [exact H | apply grows_refl].
  - apply IH1 in H. destruct H as (st1 & H & G1).
    apply IH2 in H. destruct H as (st2 & H & G2).
    exists st2. split; [exact H | exact (grows_trans _ _ _ _ _ G1 G2)].
  - destruct (rmatch r1 st k) as [c0 |] eqn:E; simpl in H.
    + inversion H; subst c0. apply IH1 in E. destruct E as (st1 & E & G).
      exists st1. split; [exact E |].
      eapply grows_weaken; [| exact G]. intros x Hx. apply in_or_app. now left.
    + apply IH2 in H. destruct H as (st1 & H & G).
      exists st1. split; [exact H |].
      eapply grows_weaken; [| exact G]. intros x Hx. apply in_or_app. now right.
  - eapply star_loop_grows; [| exact H]. exact IH1.
  - apply IH1 in H. destruct H as (st1 & H & G).
    exists (close_group n st st1). split; [exact H |].
    destruct G as (new & E & F). exists ((n, take (pos st1 - pos st) (rest st)) :: new).
    split.
    + simpl. now rewrite E.
    + constructor; [now left |].
      eapply Forall_impl; [| exact F]. intros e He. now right.
  - destruct (Nat.eqb (pos st) 0); [| discriminate].
    exists st. split; [exact H | apply grows_refl].
  - destruct (at_eol (rest st)); [| discriminate].
    exists st. split; [exact H | apply grows_refl].
Qed.

(** Unfolding equations. *)
Lemma star_loop_S greedy (m : matcher) k n st :
  star_loop greedy m k (S n) st =
  let again := m st (fun st' =>
                 if Nat.ltb (String.length (rest st')) (String.length (rest st))
                 then star_loop greedy m k n st' else None) in
  if greedy then orelse again (k st) else orelse (k st) again.
Proof. reflexivity. Qed.

Lemma rmatch_cls p st k c s' :
  rest st = String c s' ->
  rmatch (Cls p) st k = if p c then k (advance st s') else None.
Proof. intros H. simpl. rewrite H. reflexivity. Qed.

(** A greedy star of a character class in front of the end of the
    pattern always matches. *)
Lemma star_class_final (p : ascii -> bool) :
  forall n st, star_loop true (rmatch (Cls p)) final n st = Some (groups st).
Proof.
  induction n as [| n IH]; intros st; simpl.
  - reflexivity.
  - destruct (rest st) as [| x s']; [reflexivity |].
    destruct (p x); [| reflexivity].
    destruct (Nat.ltb _ _); [| reflexivity].
    rewrite IH. reflexivity.
Qed.

(** After the name, the rest of [_REQUIREMENT_LINE] matches whatever
    follows and leaves group 1 alone. *)
Lemma requirement_tail_total (st : mstate) :
  exists c,
    rmatch (Seq (Opt extras) (Star true (Cls (fun c => negb (Ascii.eqb c ";")))))
           st final = Some c
    /\ group c 1 = group (groups st) 1.
Proof.
  set (r := Seq _ _).
  assert (E : exists c, rmatch r st final = Some c).
  { subst r. cbn [rmatch Opt]. unfold orelse.
    destruct (rmatch extras st _) as [c |]; [now exists c |].
    eexists. apply star_class_final. }
  destruct E as (c & E). exists c. split; [exact E |].
  apply rmatch_grows in E. destruct E as (st' & E & G).
  unfold final in E. inversion E; subst c.
  apply (grows_group _ _ _ 1 G). simpl. intuition discriminate.
Qed.

(** The star of the name cannot start on a character that ends the
    name, and no alphanumeric character is there either. *)
Lemma name_star_stuck k n st :
  ends_name (rest st) = true ->
  star_loop true (rmatch (Cls is_name_char)) (fun s => rmatch (Cls is_alnum) s k) n st
  = None.
Proof.
  intros H. unfold ends_name in H.
  assert (A : rmatch (Cls is_alnum) st k = None).
  { simpl. destruct (rest st) as [| x s']; [reflexivity |].
    destruct (is_alnum x) eqn:E; [| reflexivity].
    apply alnum_is_name_char in E. rewrite E in H. discriminate. }
  destruct n; simpl.
  - destruct (rest st) as [| x s'] eqn:R; simpl in *; rewrite ?R in *; exact A.
  - destruct (rest st) as [| x s'] eqn:R.
    + simpl in *. rewrite R in *. exact A.
    + destruct (is_name_char x); [discriminate |]. simpl in *. rewrite R in *. exact A.
Qed.

(** With a continuation that always succeeds, the greedy star of the
    name followed by [[A-Za-z0-9]] takes [mid] and then [d] when the
    subject reads [mid ++ d :: tl] and [tl] cannot continue the name. *)
Lemma name_star_spec k :
  (forall st, k st <> None) ->
  forall mid st d tl n,
    all_chars is_name_char mid = true ->
    is_alnum d = true ->
    ends_name tl = true ->
    rest st = mid ++ String d tl ->
    String.length (rest st) <= n ->
    star_loop true (rmatch (Cls is_name_char)) (fun s => rmatch (Cls is_alnum) s k) n st
    = k (MState (pos st + String.length mid + 1) tl (groups st)).
Proof.
  intros Hk. induction mid as [| x mid IH]; intros st d tl n Hmid Hd Htl Hrest Hn.
  - simpl in Hrest. rewrite Hrest in Hn. simpl in Hn.
    destruct n as [| n]; [lia |].
    rewrite star_loop_S. cbv zeta.
    rewrite !(rmatch_cls _ st _ d tl Hrest).
    rewrite (alnum_is_name_char _ Hd), Hd.
    replace (Nat.ltb _ _) with true
      by (symmetry; apply Nat.ltb_lt; rewrite Hrest; simpl; lia).
    rewrite name_star_stuck by exact Htl.
    simpl. unfold advance. do 2 f_equal. lia.
  - simpl in Hmid. apply andb_prop in Hmid. destruct Hmid as [Hx Hmid].
    simpl in Hrest. rewrite Hrest in Hn. simpl in Hn.
    destruct n as [| n]; [lia |].
    rewrite star_loop_S. cbv zeta.
    rewrite (rmatch_cls is_name_char st _ x (mid ++ String d tl) Hrest), Hx.
    replace (Nat.ltb _ _) with true
      by (symmetry; apply Nat.ltb_lt; rewrite Hrest; simpl; lia).
    rewrite (IH (advance st (mid ++ String d tl)) d tl n Hmid Hd Htl eq_refl)
      by (simpl; lia).
    cbn [advance pos groups String.length].
    replace (S (pos st) + String.length mid + 1)
      with (pos st + S (String.length mid) + 1) by lia.
    destruct (k _) eqn:E; [reflexivity | now apply Hk in E].
Qed.

Lemma split_last (p : ascii -> bool) (t : string) (d : ascii) :
  last_char t = Some d -> all_chars p t = true ->
  exists mid, t = mid ++ String d EmptyString /\ all_chars p mid = true.
Proof.
  induction t as [| x t IH]; intros L A; [discriminate |].
  simpl in A. apply andb_prop in A. destruct A as [Hx A].
  destruct t as [| y t].
  - simpl in L. inversion L; subst. exists EmptyString. split; reflexivity.
  - destruct (IH L A) as (mid & E & Hm). exists (String x mid). split.
    + simpl. now rewrite <- E.
    + simpl. now rewrite Hx, Hm.
Qed.

(** Group 1 of [_REQUIREMENT_LINE] on a line that starts with a name. *)
Lemma requirement_line_name (name tl : string) :
  spec_valid_name name = true ->
  ends_name tl = true ->
  exists m, re_match _REQUIREMENT_LINE (name ++ tl) = Some m
            /\ group m 1 = Some name.
Proof.
  intros Hname Htl. destruct name as [| c t]; [discriminate |].
  set (tail := Seq (Opt extras) (Star true (Cls (fun c => negb (Ascii.eqb c ";"))))).
  set (st0 := MState 0 (String c (t ++ tl)) []).
  set (st1 := advance st0 (t ++ tl)).
  set (k1 := fun st' : mstate => rmatch tail (close_group 1 st0 st') final).
  set (k2 := fun st' : mstate => k1 (close_group 2 st1 st')).
  assert (Hk1 : forall st, exists m, k1 st = Some m
                 /\ group m 1 = Some (take (pos st) (String c (t ++ tl)))).
  { intros st. destruct (requirement_tail_total (close_group 1 st0 st)) as (m & E & G).
    exists m. split; [exact E |]. rewrite G. simpl. now rewrite Nat.sub_0_r. }
  assert (Hk2 : forall st, k2 st <> None).
  { intros st. unfold k2. destruct (Hk1 (close_group 2 st1 st)) as (m & E & _).
    rewrite E. discriminate. }
  assert (Hc : is_alnum c = true).
  { destruct t; simpl in Hname; [exact Hname |].
    apply andb_prop in Hname. destruct Hname as [Hname _].
    apply andb_prop in Hname. tauto. }
  change (re_match _REQUIREMENT_LINE (String c t ++ tl))
    with (if is_alnum c
          then orelse (star_loop true (rmatch (Cls is_name_char))
                         (fun s => rmatch (Cls is_alnum) s k2)
                         (String.length (rest st1)) st1)
                      (k1 st1)
          else None).
  rewrite Hc.
  destruct t as [| y t'].
  - rewrite name_star_stuck by exact Htl. cbn [orelse].
    destruct (Hk1 st1) as (m & E & G). exists m. split; [exact E |].
    rewrite G. reflexivity.
  - remember (String y t') as t eqn:Et.
    assert (H : all_chars is_name_char t = true
                /\ exists d, last_char t = Some d /\ is_alnum d = true).
    { subst t. cbn [spec_valid_name] in Hname.
      apply andb_prop in Hname. destruct Hname as [Hname Hl].
      apply andb_prop in Hname. destruct Hname as [_ Ha].
      split; [exact Ha |].
      destruct (last_char (String y t')) as [d |]; [| discriminate]. now exists d. }
    destruct H as (Ha & d & Hl & Hd).
    destruct (split_last _ _ _ Hl Ha) as (mid & Emid & Hmid).
    assert (Hrest : rest st1 = mid ++ String d tl).
    { simpl. rewrite Emid, append_assoc. reflexivity. }
    rewrite (name_star_spec k2 Hk2 mid st1 d tl _ Hmid Hd Htl Hrest) by lia.
    unfold k2 at 1.
    destruct (Hk1 (close_group 2 st1
                (MState (pos st1 + String.length mid + 1) tl (groups st1))))
      as (m & E & G).
    rewrite E. cbn [orelse]. exists m. split; [reflexivity |].
    rewrite G. f_equal. cbn [close_group pos st1 st0 advance].
    replace (1 + String.length mid + 1) with (String.length (String c t))
      by (rewrite Emid; simpl; rewrite length_append; simpl; lia).
    apply (take_append (String c t) tl).
Qed.

Lemma requirement_line_no_match (c : ascii) (s : string) :
  is_alnum c = false -> re_match _REQUIREMENT_LINE (String c s) = None.
Proof.
  intros H. unfold re_match, _REQUIREMENT_LINE, name_body.
  cbn [rmatch pos rest Nat.eqb]. rewrite H. reflexivity.
Qed.

(** ** Stripping *)

Lemma rstrip_cons_nonspace (c : ascii) (s : string) :
  PyStr.is_space c = false -> exists s', PyStr.rstrip (String c s) = String c s'.
Proof.
  intros H. simpl. destruct (PyStr.rstrip s) as [| x r].
  - rewrite H. now exists EmptyString.
  - now exists (String x r).
Qed.

Lemma strip_cons_nonspace (c : ascii) (s : string) :
  PyStr.is_space c = false -> exists s', PyStr.strip (String c s) = String c s'.
Proof.
  intros H. unfold PyStr.strip. cbn [PyStr.lstrip]. rewrite H.
  now apply rstrip_cons_nonspace.
Qed.

(** ** The loop over the lines of the manifest *)

Lemma read_packages_acc (lines : list string) :
  forall acc, read_packages lines acc = (acc ++ read_packages lines [])%list.
Proof.
  induction lines as [| l lines IH]; intros acc; simpl.
  - now rewrite app_nil_r.
  - destruct (_ || _).
    + apply IH.
    + destruct (re_match _ _) as [m |]; [| apply IH].
      rewrite (IH (acc ++ _)%list), (IH [group m 1]). now rewrite app_assoc.
Qed.

Lemma read_packages_app (l1 l2 : list string) :
  forall acc, read_packages (l1 ++ l2) acc = read_packages l2 (read_packages l1 acc).
Proof.
  induction l1 as [| l l1 IH]; intros acc; simpl.
  - reflexivity.
  - destruct (_ || _); [apply IH |].
    destruct (re_match _ _); apply IH.
Qed.

(** A line that adds nothing can be removed from the manifest. *)
Lemma read_packages_skip (before after : list string) (line : string) :
  read_packages [line] [] = [] ->
  read_packages (before ++ line :: after) [] = read_packages (before ++ after) [].
Proof.
  intros H. rewrite !read_packages_app.
  change (line :: after) with ([line] ++ after)%list.
  rewrite read_packages_app.
  rewrite (read_packages_acc [line]), H, app_nil_r. reflexivity.
Qed.

Lemma read_packages_one (before after : list string) (line : string) p :
  read_packages [line] [] = [p] ->
  read_packages (before ++ line :: after) []
  = (read_packages before [] ++ p :: read_packages after [])%list.
Proof.
  intros H. rewrite read_packages_app.
  change (line :: after) with ([line] ++ after)%list.
  rewrite read_packages_app.
  rewrite (read_packages_acc [line]), H.
  rewrite (read_packages_acc after). now rewrite <- app_assoc.
Qed.

(** ** Computations *)

Lemma bind_ok {A B} (c : M A) (f : A -> M B) t a t' :
  c t = (Ok a, t') -> bind c f t = f a t'.
Proof. intros H. unfold bind. now rewrite H. Qed.

Lemma bind_raise {A B} (c : M A) (f : A -> M B) t e t' :
  c t = (Raise e, t') -> bind c f t = (Raise e, t').
Proof. intros H. unfold bind. now rewrite H. Qed.

Lemma count_updates_acc (rs : list CheckResult) :
  forall acc, count_updates rs acc = acc + List.length (filter update_available rs).
Proof.
  induction rs as [| r rs IH]; intros acc; simpl.
  - lia.
  - rewrite IH. destruct (update_available r); simpl; lia.
Qed.

Section Properties.

Context {VL : VersionLib}.
Variable w : World.

Lemma get_installed_version_trace pkg t o t1 :
  get_installed_version w pkg t = (o, t1) -> t1 = (t ++ [PipShow pkg])%list.
Proof.
  unfold get_installed_version, try_except, bind, call, ret. intros H.
  destruct (pip_show w t pkg) as [out | e].
  - now inversion H.
  - destruct (existsb _ _); now inversion H.
Qed.


(** The name guard of [get_latest_version]: a rejected name costs no
    call to the index. *)
Lemma get_latest_version_rejected pkg t :
  matches _VALID_PACKAGE_NAME pkg = false ->
  get_latest_version w pkg t = (Ok VNone, t).
Proof. intros H. unfold get_latest_version. now rewrite H. Qed.

Lemma get_latest_version_accepted pkg t :
  matches _VALID_PACKAGE_NAME pkg = true ->
  exists out,
    get_latest_version w pkg t
    = (out, (t ++ [UrlOpen (index_url pkg)])%list).
Proof.
  intros H. unfold get_latest_version. rewrite H. cbn [negb].
  unfold try_except, bind, call, ret.
  destruct (fetch_json w t _) as [data | e].
  - destruct (getitem data "info") as [info | e].
    + destruct (getitem info "version") as [v | e]; [now eexists |].
      destruct (existsb _ _); now eexists.
    + destruct (existsb _ _); now eexists.
  - destruct (existsb _ _); now eexists.
Qed.

End Properties.

(** ** [check_package] *)

Section CheckPackage.

Context {VL : VersionLib}.
Variable w : World.

(** The outcome of [check_package] once both versions are known and
    both are accepted by [Version]. *)
Lemma check_package_compared pkg do_update t i t1 l t2 vi vl :
  get_installed_version w pkg t = (Ok (Some i), t1) ->
  get_latest_version w pkg t1 = (Ok (VStr l), t2) ->
  Version i = Some vi ->
  Version l = Some vl ->
  let r := MkResult pkg (Some i) (VStr l) (version_lt vi vl) false in
  let t3 := (t2 ++ [Print ("  " ++ pkg ++ ": " ++ i ++ " -> " ++ l
                           ++ " (update available)")])%list in
  check_package w pkg do_update t =
  if version_lt vi vl then
    if do_update then
      match pip_install w t3 pkg with
      | Ok _ =>
          (Ok (set_updated r true),
           (t3 ++ [PipInstall pkg;
                   Print ("  " ++ pkg ++ ": updated successfully to " ++ l)])%list)
      | Raise e =>
          if isinstance e CalledProcessError
          then (Ok r, (t3 ++ [PipInstall pkg;
                              Print ("  " ++ pkg ++ ": update failed")])%list)
          else (Raise e, (t3 ++ [PipInstall pkg])%list)
      end
    else (Ok r, t3)
  else (Ok r, (t2 ++ [Print ("  " ++ pkg ++ ": " ++ i ++ " (up to date)")])%list).
Proof.
  intros H1 H2 Hi Hl r t3. subst r t3. unfold check_package.
  rewrite (bind_ok _ _ _ _ _ H1). cbv beta iota.
  rewrite (bind_ok _ _ _ _ _ H2). cbv beta iota.
  unfold new_Version. rewrite Hi, Hl.
  unfold bind at 1. unfold ret at 1. unfold bind at 1. unfold ret at 1.
  destruct (version_lt vi vl).
  - unfold bind at 1. unfold print at 1.
    destruct do_update; [| reflexivity].
    unfold update_package, try_except, bind, call, ret, print.
    destruct (pip_install w _ pkg) as [[] | e].
    + cbn. rewrite <- app_assoc. reflexivity.
    + cbn [existsb]. rewrite orb_false_r.
      destruct (isinstance e CalledProcessError); [| reflexivity].
      cbn. rewrite <- app_assoc. reflexivity.
  - reflexivity.
Qed.

End CheckPackage.

Section CheckPackageProperties.

Context {VL : VersionLib}.
Variable w : World.

(** C3. When the installed-version lookup reports that the package is
    not installed, [check_package] returns the result with
    [installed = None], [update_available = false] and [updated = false];
    all it does is the [pip show] call and one printed line, so the
    upgrade is never invoked (and neither is the index). *)
Theorem check_package_not_installed pkg do_update t t1 :
  get_installed_version w pkg t = (Ok None, t1) ->
  let added := [PipShow pkg; Print ("  " ++ pkg ++ ": not installed")] in
  check_package w pkg do_update t
  = (Ok (MkResult pkg None VNone false false), (t ++ added)%list)
  /\ (forall p, ~ In (PipInstall p) added).
Proof.
  intros H added. split.
  - unfold check_package. rewrite (bind_ok _ _ _ _ _ H). cbv beta iota.
    apply get_installed_version_trace in H. subst t1.
    unfold bind, print, ret. subst added. now rewrite <- app_assoc.
  - intros p [E | [E | []]]; discriminate.
Qed.

(** C8. When the installed version and the latest version are both
    present and [Version] rejects one of them (the installed string, or
    the latest value: a string it cannot parse or an object that is not
    a string), [check_package] raises [InvalidVersion] or [TypeError]
    right after the two lookups: nothing handles the error, no result is
    returned and nothing is printed. *)
Theorem check_package_unparseable_raises pkg do_update t i t1 v t2 :
  get_installed_version w pkg t = (Ok (Some i), t1) ->
  get_latest_version w pkg t1 = (Ok v, t2) ->
  v <> VNone ->
  Version i = None \/ (forall l, v = VStr l -> Version l = None) ->
  exists e, check_package w pkg do_update t = (Raise e, t2)
            /\ (e = InvalidVersion \/ e = TypeError).
Proof.
  intros H1 H2 Hv Hbad. unfold check_package.
  rewrite (bind_ok _ _ _ _ _ H1). cbv beta iota.
  rewrite (bind_ok _ _ _ _ _ H2). cbv beta iota.
  unfold new_Version.
  destruct (Version i) as [vi |] eqn:Ei.
  - destruct Hbad as [Hbad | Hbad]; [discriminate |].
    destruct v as [| b | n | l | xs | xs]; try (now elim Hv);
      try (exists TypeError; split; [reflexivity | now right]).
    rewrite (Hbad l eq_refl).
    exists InvalidVersion. split; [reflexivity | now left].
  - exists InvalidVersion. split; [| now left].
    destruct v; try (now elim Hv); reflexivity.
Qed.

(** C9. Every result that [check_package] returns satisfies:
    [updated] implies [update_available], [do_update] and an upgrade
    that succeeded ([pip install] was called for the package and ended
    normally); [update_available] implies that the installed and the
    latest version are both present. *)
Theorem check_package_result_invariant pkg do_update t r t' :
  check_package w pkg do_update t = (Ok r, t') ->
  (updated r = true ->
     update_available r = true /\ do_update = true
     /\ exists h rest, pip_install w h pkg = Ok tt
                       /\ t' = (h ++ PipInstall pkg :: rest)%list)
  /\ (update_available r = true -> installed r <> None /\ latest r <> VNone).
Proof.
  intros H.
  destruct (get_installed_version w pkg t) as [[[i |] | e] t1] eqn:E1.
  - destruct (get_latest_version w pkg t1) as [[v | e] t2] eqn:E2.
    + assert (Hno : forall x tx, (Ok x, tx) = (Ok r, t') ->
                update_available x = false -> updated x = false ->
                (updated r = true ->
                   update_available r = true /\ do_update = true
                   /\ exists h rest, pip_install w h pkg = Ok tt
                                     /\ t' = (h ++ PipInstall pkg :: rest)%list)
                /\ (update_available r = true -> installed r <> None /\ latest r <> VNone)).
      { intros x tx E A B. inversion E; subst. split; intros C; congruence. }
      destruct (Version i) as [vi |] eqn:Ei.
      * destruct v as [| b | n | l | xs | xs];
          try (unfold check_package in H;
               rewrite (bind_ok _ _ _ _ _ E1) in H; cbv beta iota in H;
               rewrite (bind_ok _ _ _ _ _ E2) in H; cbv beta iota in H;
               unfold new_Version in H; rewrite ?Ei in H;
               first [discriminate H
                     | unfold bind, print, ret in H;
                       apply (Hno _ _ H); reflexivity]).
        destruct (Version l) as [vl |] eqn:El.
        -- rewrite (check_package_compared w pkg do_update t i t1 l t2 vi vl E1 E2 Ei El) in H.
           cbv zeta in H.
           destruct (version_lt vi vl) eqn:L.
           ++ destruct do_update.
              ** destruct (pip_install w _ pkg) as [[] | e] eqn:P.
                 --- inversion H; subst. split; intros _.
                     +++ split; [reflexivity |]. split; [reflexivity |].
                         eexists. exists [Print ("  " ++ pkg ++ ": updated successfully to " ++ l)].
                         split; [exact P | reflexivity].
                     +++ split; discriminate.
                 --- destruct (isinstance e CalledProcessError); [| discriminate].
                     inversion H; subst. split; intros C; [discriminate C |].
                     split; discriminate.
              ** inversion H; subst. split; intros C; [discriminate C |].
                 split; discriminate.
           ++ apply (Hno _ _ H); reflexivity.
        -- unfold check_package in H.
           rewrite (bind_ok _ _ _ _ _ E1) in H; cbv beta iota in H.
           rewrite (bind_ok _ _ _ _ _ E2) in H; cbv beta iota in H.
           unfold new_Version in H. rewrite Ei, El in H. discriminate H.
      * unfold check_package in H.
        rewrite (bind_ok _ _ _ _ _ E1) in H; cbv beta iota in H.
        rewrite (bind_ok _ _ _ _ _ E2) in H; cbv beta iota in H.
        unfold new_Version in H.
        destruct v; rewrite ?Ei in H;
          first [discriminate H
                | unfold bind, print, ret in H; apply (Hno _ _ H); reflexivity].
    + unfold check_package in H.
      rewrite (bind_ok _ _ _ _ _ E1) in H; cbv beta iota in H.
      rewrite (bind_raise _ _ _ _ _ E2) in H. discriminate H.
  - unfold check_package in H.
    rewrite (bind_ok _ _ _ _ _ E1) in H; cbv beta iota in H.
    inversion H; subst. split; intros C; discriminate C.
  - unfold check_package in H.
    rewrite (bind_raise _ _ _ _ _ E1) in H. discriminate H.
Qed.

End CheckPackageProperties.

Lemma check_package_not_installed_witness :
  let w := world_of (Raise CalledProcessError) (Ok tt) (Ok (index_reply "1.3.0"))
                    (Ok EmptyString) in
  get_installed_version w "requests" [] = (Ok None, [PipShow "requests"])
  /\ check_package w "requests" true []
     = (Ok (MkResult "requests" None VNone false false),
        [PipShow "requests"; Print "  requests: not installed"]).
Proof.
  intros w. split; [reflexivity |].
  apply (check_package_not_installed w "requests" true [] [PipShow "requests"]).
  reflexivity.
Defined.

Lemma check_package_unparseable_raises_witness :
  let w := sample_world "not-a-version" "1.3.0" EmptyString in
  Version "not-a-version" = None
  /\ exists e,
       check_package w "requests" false []
       = (Raise e, [PipShow "requests"; UrlOpen "https://pypi.org/pypi/requests/json"])
       /\ (e = InvalidVersion \/ e = TypeError).
Proof.
  intros w. split; [vm_compute; reflexivity |].
  apply (check_package_unparseable_raises w "requests" false []
           "not-a-version" [PipShow "requests"] (VStr "1.3.0")).
  - vm_compute. reflexivity.
  - vm_compute. reflexivity.
  - discriminate.
  - left. vm_compute. reflexivity.
Defined.

Lemma check_package_result_invariant_witness :
  let w := sample_world "1.2.0" "1.3.0" EmptyString in
  let r := MkResult "requests" (Some "1.2.0") (VStr "1.3.0") true true in
  let t' := [PipShow "requests"; UrlOpen "https://pypi.org/pypi/requests/json";
             Print "  requests: 1.2.0 -> 1.3.0 (update available)";
             PipInstall "requests";
             Print "  requests: updated successfully to 1.3.0"] in
  (updated r = true ->
     update_available r = true /\ true = true
     /\ exists h rest, pip_install w h "requests" = Ok tt
                       /\ t' = (h ++ PipInstall "requests" :: rest)%list)
  /\ (update_available r = true -> installed r <> None /\ latest r <> VNone).
Proof.
  intros w r t'.
  apply (check_package_result_invariant w "requests" true [] r t').
  vm_compute. reflexivity.
Defined.

(** C1. With both versions accepted by the version library (PEP 440),
    the comparison in [check_package] sets [update_available] to true
    exactly when the installed version is strictly below the latest one
    in the PEP 440 order, where release segments compare as numbers.
    (Only when that comparison triggers an upgrade and [pip install]
    breaks with something other than a non-zero exit is no result
    returned.)  Installed "1.2.0" against latest "1.3.0" gives true;
    installed "1.10.0" against latest "1.9.0" gives false. *)
Theorem check_package_flags_older_version :
  (forall (w : World) pkg do_update t i t1 l t2 vi vl,
     get_installed_version w pkg t = (Ok (Some i), t1) ->
     get_latest_version w pkg t1 = (Ok (VStr l), t2) ->
     Pep440.parse i = Some vi ->
     Pep440.parse l = Some vl ->
     (exists r t', check_package w pkg do_update t = (Ok r, t')
                   /\ (update_available r = true <-> Pep440.lt vi vl = true))
     \/ (do_update = true /\ Pep440.lt vi vl = true
         /\ exists e h, check_package w pkg do_update t
                        = (Raise e, (h ++ [PipInstall pkg])%list)
                        /\ pip_install w h pkg = Raise e
                        /\ isinstance e CalledProcessError = false))
  /\ (forall (w : World) pkg do_update t t1 t2,
        get_installed_version w pkg t = (Ok (Some "1.2.0"), t1) ->
        get_latest_version w pkg t1 = (Ok (VStr "1.3.0"), t2) ->
        do_update = false ->
        exists r t', check_package w pkg do_update t = (Ok r, t')
                     /\ update_available r = true)
  /\ (forall (w : World) pkg do_update t t1 t2,
        get_installed_version w pkg t = (Ok (Some "1.10.0"), t1) ->
        get_latest_version w pkg t1 = (Ok (VStr "1.9.0"), t2) ->
        exists r t', check_package w pkg do_update t = (Ok r, t')
                     /\ update_available r = false).
Proof.
  split; [| split].
  - intros w pkg do_update t i t1 l t2 vi vl H1 H2 Hi Hl.
    pose proof (check_package_compared (VL := pep440) w pkg do_update t i t1 l t2 vi vl
                  H1 H2 Hi Hl)
      as E.
    cbv zeta in E. change (@version_lt pep440 vi vl) with (Pep440.lt vi vl) in E.
    destruct (Pep440.lt vi vl) eqn:L.
    + destruct do_update.
      * destruct (pip_install w _ pkg) as [[] | e] eqn:P.
        -- left. do 2 eexists. split; [exact E | now split].
        -- destruct (isinstance e CalledProcessError) eqn:I.
           ++ left. do 2 eexists. split; [exact E | now split].
           ++ right. split; [reflexivity |]. split; [reflexivity |].
              do 2 eexists. split; [exact E |]. now split.
      * left. do 2 eexists. split; [exact E | now split].
    + left. do 2 eexists. split; [exact E |]. simpl. split; intros C; exact C.
  - intros w pkg do_update t t1 t2 H1 H2 ->.
    assert (P1 : Pep440.parse "1.2.0" = Some (Pep440.MkVersion 0 [1; 2; 0]%N None None None None))
      by (vm_compute; reflexivity).
    assert (P2 : Pep440.parse "1.3.0" = Some (Pep440.MkVersion 0 [1; 3; 0]%N None None None None))
      by (vm_compute; reflexivity).
    rewrite (check_package_compared (VL := pep440) w pkg false t _ t1 _ t2 _ _ H1 H2 P1 P2).
    do 2 eexists. split; reflexivity.
  - intros w pkg do_update t t1 t2 H1 H2.
    assert (P1 : Pep440.parse "1.10.0" = Some (Pep440.MkVersion 0 [1; 10; 0]%N None None None None))
      by (vm_compute; reflexivity).
    assert (P2 : Pep440.parse "1.9.0" = Some (Pep440.MkVersion 0 [1; 9; 0]%N None None None None))
      by (vm_compute; reflexivity).
    rewrite (check_package_compared (VL := pep440) w pkg do_update t _ t1 _ t2 _ _ H1 H2 P1 P2).
    do 2 eexists. split; reflexivity.
Qed.

Lemma check_package_flags_older_version_witness :
  let w := sample_world "1.2.0" "1.3.0" EmptyString in
  let vi := Pep440.MkVersion 0 [1; 2; 0]%N None None None None in
  let vl := Pep440.MkVersion 0 [1; 3; 0]%N None None None None in
  (exists r t', check_package w "requests" true [] = (Ok r, t')
                /\ (update_available r = true <-> Pep440.lt vi vl = true))
  \/ (true = true /\ Pep440.lt vi vl = true
      /\ exists e h, check_package w "requests" true []
                     = (Raise e, (h ++ [PipInstall "requests"])%list)
                     /\ pip_install w h "requests" = Raise e
                     /\ isinstance e CalledProcessError = false).
Proof.
  intros w vi vl.
  apply (proj1 check_package_flags_older_version w "requests" true []
           "1.2.0" [PipShow "requests"] "1.3.0"
           [PipShow "requests"; UrlOpen "https://pypi.org/pypi/requests/json"]);
    vm_compute; reflexivity.
Defined.

(** ** The manifest reader *)

Lemma startswith_hash (line : string) :
  PyStr.startswith "#" line = true -> exists s, line = String "#" s.
Proof.
  destruct line as [| c s]; cbn [PyStr.startswith]; intros H;
    [discriminate H |].
  destruct (Ascii.eqb_spec "#" c) as [<- | _]; [| discriminate H].
  now exists s.
Qed.

Lemma read_packages_blank (line : string) :
  PyStr.strip line = EmptyString -> read_packages [line] [] = [].
Proof. intros H. cbn [read_packages]. now rewrite H. Qed.

Lemma read_packages_comment (line : string) :
  PyStr.startswith "#" line = true -> read_packages [line] [] = [].
Proof.
  intros H. destruct (startswith_hash _ H) as (s & ->).
  destruct (strip_cons_nonspace "#" s eq_refl) as (s' & E).
  cbn [read_packages]. rewrite E. reflexivity.
Qed.

Lemma read_packages_other (line : string) (c : ascii) (s : string) :
  PyStr.strip line = String c s -> is_alnum c = false ->
  read_packages [line] [] = [].
Proof.
  intros E H. cbn [read_packages]. rewrite E.
  destruct (_ || _); [reflexivity |].
  now rewrite (requirement_line_no_match c s H).
Qed.

Lemma read_packages_named (line name tl : string) :
  PyStr.strip line = name ++ tl ->
  spec_valid_name name = true -> ends_name tl = true ->
  read_packages [line] [] = [Some name].
Proof.
  intros E Hn Ht. destruct (requirement_line_name name tl Hn Ht) as (m & Em & G).
  destruct name as [| c t]; [discriminate |].
  assert (Hc : is_alnum c = true).
  { destruct t; simpl in Hn; [exact Hn |].
    apply andb_prop in Hn. destruct Hn as [Hn _].
    apply andb_prop in Hn. tauto. }
  assert (B : (String.eqb (String c t ++ tl) EmptyString
               || PyStr.startswith "#" (String c t ++ tl)) = false).
  { cbn [append String.eqb orb PyStr.startswith].
    destruct (Ascii.eqb_spec "#" c) as [<- | _]; [discriminate Hc | reflexivity]. }
  cbn [read_packages]. rewrite E, B, Em, G. reflexivity.
Qed.

(** C5. The manifest reader skips every blank line and every line that
    begins with '#'; from a requirement line, which after stripping
    reads as a package name followed by nothing or by a character that
    cannot continue a name (an extras bracket, a version operator, the
    ';' of an environment marker, a blank), it extracts exactly that
    name.  The line [requests[security]>=2.0; python_version>="3.6"]
    yields [requests], and a manifest made of a comment, an empty line
    and that line makes the script check [requests] and nothing else. *)
Theorem manifest_reader_extracts_names :
  (forall before line after,
     PyStr.strip line = EmptyString \/ PyStr.startswith "#" line = true ->
     read_packages (before ++ line :: after) []
     = read_packages (before ++ after) [])
  /\ (forall before line after name tl,
        PyStr.strip line = name ++ tl ->
        spec_valid_name name = true ->
        ends_name tl = true ->
        read_packages (before ++ line :: after) []
        = (read_packages before [] ++ Some name :: read_packages after [])%list)
  /\ read_packages [example_line] [] = [Some "requests"]
  /\ check_requirements_file (sample_world "2.31.0" "2.31.0" example_manifest)
       "requirements.txt" false []
     = (Ok [MkResult "requests" (Some "2.31.0") (VStr "2.31.0") false false],
        [OpenFile "requirements.txt"; PipShow "requests";
         UrlOpen "https://pypi.org/pypi/requests/json";
         Print "  requests: 2.31.0 (up to date)"]).
Proof.
  split; [| split; [| split]].
  - intros before line after [H | H]; apply read_packages_skip.
    + now apply read_packages_blank.
    + now apply read_packages_comment.
  - intros before line after name tl E Hn Ht. apply read_packages_one.
    now apply (read_packages_named line name tl).
  - vm_compute. reflexivity.
  - vm_compute. reflexivity.
Qed.

Lemma manifest_reader_extracts_names_witness :
  read_packages (["# tools"; nl] ++ ("  flask==2.0" ++ nl) :: ["numpy"]) []
  = (read_packages ["# tools"; nl] [] ++ Some "flask" :: read_packages ["numpy"] [])%list.
Proof.
  apply (proj1 (proj2 manifest_reader_extracts_names)
           ["# tools"; nl] ("  flask==2.0" ++ nl) ["numpy"] "flask" "==2.0");
    reflexivity.
Defined.

Section ManifestProperties.

Context {VL : VersionLib}.
Variable w : World.

Lemma check_requirements_file_opened path upd t text :
  open_text w t path = Ok text ->
  check_requirements_file w path upd t
  = check_each w (read_packages (PyStr.file_lines text) []) upd []
               (t ++ [OpenFile path])%list.
Proof.
  intros H. unfold check_requirements_file, try_except, bind, call, ret.
  rewrite H. reflexivity.
Qed.

(** C10 (amended). A manifest line whose first character after
    stripping the surrounding white space is not an ASCII alphanumeric
    (such as [-r other.txt] or [-e .]) is silently skipped: the reader
    extracts the same names as without the line, and the run of
    [check_requirements_file] is the run over those names, with no
    result and no message for the line. *)
Theorem manifest_reader_skips_other_lines path upd t text before line after c s :
  open_text w t path = Ok text ->
  PyStr.file_lines text = (before ++ line :: after)%list ->
  PyStr.strip line = String c s ->
  is_alnum c = false ->
  read_packages (before ++ line :: after) [] = read_packages (before ++ after) []
  /\ check_requirements_file w path upd t
     = check_each w (read_packages (before ++ after) []) upd []
                  (t ++ [OpenFile path])%list.
Proof.
  intros Ho Hl Hs Hc.
  assert (E : read_packages (before ++ line :: after) []
              = read_packages (before ++ after) []).
  { apply read_packages_skip. now apply (read_packages_other line c s). }
  split; [exact E |].
  rewrite (check_requirements_file_opened _ _ _ _ Ho), Hl, E. reflexivity.
Qed.

(** C6. On a path where no file exists, [check_requirements_file]
    prints the error message, returns the empty list and does not
    raise; [main] goes on to its summary and ends normally. *)
Theorem check_requirements_file_missing path upd t :
  (forall h, open_text w h path = Raise FileNotFoundError) ->
  let message := Print ("Error: requirements file '" ++ path ++ "' not found.") in
  check_requirements_file w path upd t
  = (Ok [], (t ++ [OpenFile path; message])%list)
  /\ main w (MkArgs None (Some path) upd) t
     = (Ok tt, (t ++ [Print "Checking for updates..."; OpenFile path; message;
                      Print (nl ++ "All packages are up to date.")])%list).
Proof.
  intros H message.
  assert (E : forall h, check_requirements_file w path upd h
                        = (Ok [], (h ++ [OpenFile path; message])%list)).
  { intros h. unfold check_requirements_file, try_except, bind, call, ret, print.
    rewrite H. cbn. now rewrite <- app_assoc. }
  split; [apply E |].
  unfold main, collect. cbn [arg_package arg_requirements arg_update truthy].
  unfold bind at 1. unfold bind at 1. unfold print at 1.
  rewrite E. unfold summarize. cbn [count_updates Nat.eqb negb].
  unfold print. rewrite <- !app_assoc. reflexivity.
Qed.

(** C7. Whatever results a run collects, the summary that [main] prints
    reports the number of results whose [update_available] flag is
    true: that number before " update(s) available." when it is not
    zero, "All packages are up to date." when it is zero.  The
    [--update] flag only decides whether the hint line follows. *)
Theorem main_summary_counts_updates args t rs t1 :
  collect w args t = (Ok rs, t1) ->
  let n := List.length (filter update_available rs) in
  (n = 0 ->
     main w args t
     = (Ok tt, (t1 ++ [Print (nl ++ "All packages are up to date.")])%list))
  /\ (n <> 0 ->
        main w args t
        = (Ok tt,
           (t1 ++ Print (nl ++ PyStr.of_nat n ++ " update(s) available.")
               :: (if arg_update args then []
                   else [Print "Run with --update to apply updates."]))%list)).
Proof.
  intros H n. unfold main. rewrite (bind_ok _ _ _ _ _ H).
  unfold summarize. rewrite count_updates_acc. cbn [Nat.add]. fold n.
  split; intros Hn.
  - rewrite Hn. reflexivity.
  - destruct (Nat.eqb_spec n 0) as [E | _]; [now elim Hn |].
    cbn [negb]. unfold bind, print, ret.
    destruct (arg_update args); cbn; [reflexivity |].
    now rewrite <- app_assoc.
Qed.

End ManifestProperties.

Lemma manifest_reader_skips_other_lines_witness :
  let text := "-r other.txt" ++ nl ++ "requests" ++ nl in
  let w := sample_world "2.31.0" "2.31.0" text in
  read_packages ([] ++ ("-r other.txt" ++ nl) :: ["requests" ++ nl]) []
  = read_packages ([] ++ ["requests" ++ nl]) []
  /\ check_requirements_file w "requirements.txt" false []
     = check_each w (read_packages ([] ++ ["requests" ++ nl]) []) false []
                  ([] ++ [OpenFile "requirements.txt"])%list.
Proof.
  intros text w.
  apply (manifest_reader_skips_other_lines w "requirements.txt" false [] text
           [] ("-r other.txt" ++ nl) ["requests" ++ nl] "-" "r other.txt");
    reflexivity.
Defined.

(** C10 as stated fails for an indented requirement: the line
    [" requests"] is not blank, is no comment and does not begin with an
    alphanumeric character, yet the reader extracts [requests] from
    it. *)
Lemma indented_requirement_not_skipped :
  ~ (forall line c s,
       line = String c s ->
       PyStr.strip line <> EmptyString ->
       PyStr.startswith "#" line = false ->
       PyStr.startswith "#" (PyStr.strip line) = false ->
       is_alnum c = false ->
       read_packages [line] [] = []).
Proof.
  intros H.
  specialize (H " requests" " "%char "requests" eq_refl).
  assert (E : read_packages [" requests"] [] = [Some "requests"])
    by (vm_compute; reflexivity).
  rewrite H in E; try reflexivity; [discriminate E |].
  vm_compute. discriminate.
Qed.

Lemma check_requirements_file_missing_witness :
  let w := world_of (Ok (show_output "1.0")) (Ok tt) (Ok (index_reply "1.0"))
                    (Raise FileNotFoundError) in
  check_requirements_file w "reqs.txt" false []
  = (Ok [], [OpenFile "reqs.txt";
             Print "Error: requirements file 'reqs.txt' not found."])
  /\ main w (MkArgs None (Some "reqs.txt") false) []
     = (Ok tt, [Print "Checking for updates..."; OpenFile "reqs.txt";
                Print "Error: requirements file 'reqs.txt' not found.";
                Print (nl ++ "All packages are up to date.")]).
Proof.
  intros w.
  apply (check_requirements_file_missing w "reqs.txt" false []).
  intros h. reflexivity.
Defined.

Lemma main_summary_counts_updates_witness :
  let w := sample_world "1.2.0" "1.3.0" example_manifest in
  let args := MkArgs None (Some "requirements.txt") false in
  let t1 := [Print "Checking for updates..."; OpenFile "requirements.txt";
             PipShow "requests"; UrlOpen "https://pypi.org/pypi/requests/json";
             Print "  requests: 1.2.0 -> 1.3.0 (update available)"] in
  main w args []
  = (Ok tt, (t1 ++ [Print (nl ++ "1 update(s) available.");
                   Print "Run with --update to apply updates."])%list).
Proof.
  intros w args t1.
  assert (H : collect w args []
              = (Ok [MkResult "requests" (Some "1.2.0") (VStr "1.3.0") true false], t1))
    by (vm_compute; reflexivity).
  apply (proj2 (main_summary_counts_updates w args [] _ t1 H)).
  discriminate.
Defined.

(** ** [get_latest_version] *)

Section LatestVersion.

Variable w : World.

(** X8. What the handler of [get_latest_version] absorbs: an exception
    of the three classes raised on the way to the document ([HTTPError]
    counts as a [URLError]), or a key that is missing from an object
    ("info" in the document, "version" in "info").  The result is
    [None] after the one request; nothing is retried. *)
Lemma get_latest_version_handled pkg t :
  matches _VALID_PACKAGE_NAME pkg = true ->
  (exists e, fetch_json w t (index_url pkg) = Raise e
             /\ existsb (isinstance e) [URLError; JSONDecodeError; KeyError] = true)
  \/ (exists items, fetch_json w t (index_url pkg) = Ok (VDict items)
                    /\ dict_get "info" items = None)
  \/ (exists items info, fetch_json w t (index_url pkg) = Ok (VDict items)
                         /\ dict_get "info" items = Some (VDict info)
                         /\ dict_get "version" info = None) ->
  get_latest_version w pkg t = (Ok VNone, (t ++ [UrlOpen (index_url pkg)])%list).
Proof.
  intros Hm H. unfold get_latest_version. rewrite Hm. cbn [negb].
  unfold try_except, bind, call, ret, getitem.
  destruct H as [(e & -> & He) | [(items & -> & Hi) | (items & info & -> & Hi & Hv)]].
  - now rewrite He.
  - now rewrite Hi.
  - now rewrite Hi, Hv.
Qed.

(** C4, the case the handler misses.  The specification wants [None] and no
    exception whenever [info.version] is missing.  When the index
    answers with a JSON document that is not an object, or whose "info"
    member is not an object (as in [{"info": null}]), the subscript
    raises [TypeError], which is none of the three classes of the
    [except] clause: the exception leaves [get_latest_version]. *)
Theorem get_latest_version_type_error pkg t data :
  matches _VALID_PACKAGE_NAME pkg = true ->
  fetch_json w t (index_url pkg) = Ok data ->
  (forall items, data = VDict items ->
     exists info, dict_get "info" items = Some info
                  /\ forall items', info <> VDict items') ->
  get_latest_version w pkg t
  = (Raise TypeError, (t ++ [UrlOpen (index_url pkg)])%list).
Proof.
  intros Hm Hf Hd. unfold get_latest_version. rewrite Hm. cbn [negb].
  unfold try_except, bind, call, ret. rewrite Hf.
  destruct data as [| b | n | s | xs | items]; try reflexivity.
  destruct (Hd items eq_refl) as (info & Hi & Hinfo).
  unfold getitem at 1. rewrite Hi.
  destruct info as [| b | n | s | xs | items']; try reflexivity.
  now elim (Hinfo items').
Qed.

(** C2, the name the guard misses.  The specification wants [None] and no
    network call for every name outside the pattern.  A valid name
    followed by a line feed is outside the pattern in the words of the
    specification, but [$] in [_VALID_PACKAGE_NAME] also matches just
    before a final line feed: the guard lets the name through and
    [urlopen] is called with the line feed inside the URL. *)
Theorem get_latest_version_trailing_newline t :
  spec_valid_name ("a" ++ nl) = false
  /\ matches _VALID_PACKAGE_NAME ("a" ++ nl) = true
  /\ exists out,
       get_latest_version w ("a" ++ nl) t
       = (out, (t ++ [UrlOpen ("https://pypi.org/pypi/a" ++ nl ++ "/json")])%list).
Proof.
  split; [reflexivity |]. split; [vm_compute; reflexivity |].
  apply (get_latest_version_accepted w ("a" ++ nl) t). vm_compute. reflexivity.
Qed.

End LatestVersion.

Lemma get_latest_version_type_error_witness :
  let w := world_of (Ok (show_output "1.0")) (Ok tt)
                    (Ok (VDict [("info", VNone)])) (Ok EmptyString) in
  get_latest_version w "requests" []
  = (Raise TypeError, [UrlOpen "https://pypi.org/pypi/requests/json"]).
Proof.
  intros w.
  apply (get_latest_version_type_error w "requests" [] (VDict [("info", VNone)])).
  - vm_compute. reflexivity.
  - reflexivity.
  - intros items E. inversion E; subst. exists VNone. split; [reflexivity |].
    intros items'. discriminate.
Defined.

(** ** [_VALID_PACKAGE_NAME] against the pattern of the specification *)

Lemma orelse_some {A} (a b : option A) :
  orelse a b <> None <-> a <> None \/ b <> None.
Proof.
  destruct a as [x |]; simpl.
  - split; [intros _; left; discriminate | intros _; discriminate].
  - split; [intros H; now right | intros [H | H]; [now elim H | exact H]].
Qed.

Lemma mstate_eta (st : mstate) : MState (pos st) (rest st) (groups st) = st.
Proof. now destruct st. Qed.

(** A greedy star of a class succeeds exactly when the continuation
    succeeds after some prefix made of characters of the class. *)
Lemma star_class_success (p : ascii -> bool) k :
  forall n st,
    String.length (rest st) <= n ->
    (star_loop true (rmatch (Cls p)) k n st <> None
     <-> exists u v, rest st = u ++ v /\ all_chars p u = true
                     /\ k (MState (pos st + String.length u) v (groups st)) <> None).
Proof.
  induction n as [| n IH]; intros st Hn.
  - destruct (rest st) as [| x s'] eqn:R; [| simpl in Hn; lia].
    cbn [star_loop orelse]. split.
    + intros H. exists EmptyString, EmptyString. repeat split.
      cbn [String.length]. rewrite Nat.add_0_r, <- R, mstate_eta. exact H.
    + intros (u & v & E & _ & H). destruct u; [| discriminate E].
      simpl in E. subst v. cbn [String.length] in H.
      now rewrite Nat.add_0_r, <- R, mstate_eta in H.
  - rewrite star_loop_S. cbv zeta. rewrite orelse_some. split.
    + intros [H | H].
      * destruct (rest st) as [| x s'] eqn:R;
          [cbn [rmatch] in H; rewrite R in H; now elim H |].
        rewrite (rmatch_cls p st _ x s' R) in H.
        destruct (p x) eqn:Px; [| now elim H].
        destruct (Nat.ltb _ _); [| now elim H].
        apply IH in H; [| simpl in *; lia].
        destruct H as (u & v & E & Hu & H). simpl in E.
        exists (String x u), v. repeat split.
        -- simpl. now rewrite E.
        -- simpl. now rewrite Px, Hu.
        -- cbn [advance pos groups String.length] in *.
           now replace (pos st + S (String.length u))
             with (S (pos st) + String.length u) by lia.
      * exists EmptyString, (rest st). repeat split.
        cbn [String.length]. now rewrite Nat.add_0_r, mstate_eta.
    + intros (u & v & E & Hu & H). destruct u as [| x u].
      * right. simpl in E. subst v. cbn [String.length] in H.
        now rewrite Nat.add_0_r, mstate_eta in H.
      * left. simpl in E, Hu. apply andb_prop in Hu. destruct Hu as [Px Hu].
        rewrite (rmatch_cls p st _ x (u ++ v) E), Px.
        replace (Nat.ltb _ _) with true
          by (symmetry; apply Nat.ltb_lt; rewrite E; simpl; lia).
        apply IH; [rewrite E in Hn; simpl in *; lia |].
        exists u, v. repeat split; [exact Hu |].
        cbn [advance pos groups String.length] in *.
        now replace (S (pos st) + String.length u)
          with (pos st + S (String.length u)) by lia.
Qed.

Lemma at_eol_spec (s : string) : at_eol s = true <-> s = EmptyString \/ s = nl.
Proof.
  split.
  - destruct s as [| x s]; [now left |]. intros H. right. unfold nl.
    destruct (Ascii.eqb_spec x "010") as [-> | N].
    + destruct s; [reflexivity | discriminate H].
    + exfalso. destruct x as [[] [] [] [] [] [] [] []]; simpl in H;
        try discriminate H; now elim N.
  - intros [-> | ->]; reflexivity.
Qed.

Lemma all_chars_app (p : ascii -> bool) (a b : string) :
  all_chars p (a ++ b) = all_chars p a && all_chars p b.
Proof.
  induction a as [| x a IH]; simpl; [reflexivity |].
  now rewrite IH, andb_assoc.
Qed.

Lemma last_char_app (a : string) (d : ascii) :
  last_char (a ++ String d EmptyString) = Some d.
Proof.
  induction a as [| x a IH]; [reflexivity |].
  simpl. rewrite IH. now destruct a.
Qed.

(** The boolean pattern of the specification, spelled out. *)
Lemma spec_valid_name_iff (s : string) :
  spec_valid_name s = true
  <-> exists c t, s = String c t /\ is_alnum c = true
        /\ (t = EmptyString
            \/ exists u d, t = u ++ String d EmptyString
                           /\ all_chars is_name_char u = true /\ is_alnum d = true).
Proof.
  split.
  - destruct s as [| c t]; [discriminate |]. intros H. exists c, t.
    destruct t as [| y t'].
    + simpl in H. repeat split; [exact H | now left].
    + remember (String y t') as t. cbn [spec_valid_name] in H. subst t.
      apply andb_prop in H. destruct H as [H Hl].
      apply andb_prop in H. destruct H as [Hc Ha].
      repeat split; [exact Hc |]. right.
      destruct (last_char (String y t')) as [d |] eqn:L; [| discriminate].
      destruct (split_last _ _ _ L Ha) as (u & E & Hu).
      exists u, d. now repeat split.
  - intros (c & t & -> & Hc & [-> | (u & d & -> & Hu & Hd)]).
    + exact Hc.
    + assert (E : spec_valid_name (String c (u ++ String d EmptyString))
                  = is_alnum c && all_chars is_name_char (u ++ String d EmptyString)
                    && match last_char (u ++ String d EmptyString) with
                       | Some d => is_alnum d
                       | None => false
                       end).
      { destruct u; reflexivity. }
      rewrite E, Hc, all_chars_app, Hu, last_char_app, Hd. simpl.
      now rewrite (alnum_is_name_char _ Hd).
Qed.

(** The pattern as the matcher runs it. *)
Lemma matches_valid_name_iff (s : string) :
  matches _VALID_PACKAGE_NAME s = true
  <-> exists c t, s = String c t /\ is_alnum c = true
        /\ (at_eol t = true
            \/ exists u d v, t = u ++ String d v
                 /\ all_chars is_name_char u = true /\ is_alnum d = true
                 /\ at_eol v = true).
Proof.
  assert (M : matches _VALID_PACKAGE_NAME s = true
              <-> re_match _VALID_PACKAGE_NAME s <> None).
  { unfold matches. destruct (re_match _ _); split; intros H;
      try reflexivity; try discriminate; now elim H. }
  rewrite M. clear M.
  destruct s as [| c t].
  - split; [intros H; now elim H | intros (c & t & E & _); discriminate E].
  - set (st1 := MState 1 t []).
    set (keol := fun st : mstate =>
                   if at_eol (rest st) then Some (groups st) else None).
    set (k2 := fun st' : mstate => keol (close_group 1 st1 st')).
    change (re_match _VALID_PACKAGE_NAME (String c t))
      with (if is_alnum c
            then orelse (star_loop true (rmatch (Cls is_name_char))
                           (fun s => rmatch (Cls is_alnum) s k2)
                           (String.length (rest st1)) st1)
                        (keol st1)
            else None).
    assert (K : forall st, rmatch (Cls is_alnum) st k2 <> None
                  <-> exists d v, rest st = String d v /\ is_alnum d = true
                                  /\ at_eol v = true).
    { intros st. destruct (rest st) as [| d v] eqn:R.
      - simpl. rewrite R. split; [intros H; now elim H |].
        intros (d & v & E & _). discriminate E.
      - rewrite (rmatch_cls _ st _ d v R). split.
        + intros H. exists d, v. destruct (is_alnum d); [| now elim H].
          unfold k2, keol in H. cbn [close_group rest advance] in H.
          destruct (at_eol v); [now repeat split | now elim H].
        + intros (d' & v' & E & Hd & Hv). inversion E; subst d' v'.
          rewrite Hd. unfold k2, keol. cbn [close_group rest advance].
          rewrite Hv. discriminate. }
    split.
    + intros H. exists c, t. destruct (is_alnum c); [| now elim H].
      repeat split. apply orelse_some in H. destruct H as [H | H].
      * right. apply star_class_success in H; [| lia].
        destruct H as (u & v & E & Hu & H). apply K in H.
        destruct H as (d & v' & E' & Hd & Hv). cbn [rest] in E'. subst v.
        exists u, d, v'. now repeat split.
      * left. unfold keol in H. cbn [rest st1] in H.
        destruct (at_eol t); [reflexivity | now elim H].
    + intros (c' & t' & E & Hc & H). inversion E; subst c' t'. rewrite Hc.
      apply orelse_some. destruct H as [H | (u & d & v & Et & Hu & Hd & Hv)].
      * right. unfold keol. cbn [rest st1]. rewrite H. discriminate.
      * left. apply star_class_success; [lia |].
        exists u, (String d v). repeat split; [exact Et | exact Hu |].
        apply K. exists d, v. now repeat split.
Qed.

(** [_VALID_PACKAGE_NAME] accepts the names of the specification and,
    because [$] also matches before a final line feed, those names with
    one line feed added; nothing else. *)
Lemma valid_package_name_refines (s : string) :
  matches _VALID_PACKAGE_NAME s = true
  <-> spec_valid_name s = true
      \/ exists s', s = s' ++ nl /\ spec_valid_name s' = true.
Proof.
  rewrite matches_valid_name_iff. split.
  - intros (c & t & -> & Hc & [H | (u & d & v & -> & Hu & Hd & H)]);
      apply at_eol_spec in H; destruct H as [-> | ->].
    + left. exact Hc.
    + right. exists (String c EmptyString). split; [reflexivity | exact Hc].
    + left. apply spec_valid_name_iff. exists c, (u ++ String d EmptyString).
      repeat split; [exact Hc |]. right. exists u, d. now repeat split.
    + right. exists (String c (u ++ String d EmptyString)). split.
      * simpl. rewrite append_assoc. reflexivity.
      * apply spec_valid_name_iff. exists c, (u ++ String d EmptyString).
        repeat split; [exact Hc |]. right. exists u, d. now repeat split.
  - intros [H | (s' & -> & H)]; apply spec_valid_name_iff in H;
      destruct H as (c & t & -> & Hc & [-> | (u & d & -> & Hu & Hd)]).
    + exists c, EmptyString. repeat split; [exact Hc | now left].
    + exists c, (u ++ String d EmptyString). repeat split; [exact Hc |].
      right. exists u, d, EmptyString. now repeat split.
    + exists c, nl. repeat split; [exact Hc | now left].
    + exists c, (u ++ String d nl). repeat split.
      * simpl. rewrite append_assoc. reflexivity.
      * exact Hc.
      * right. exists u, d, nl. now repeat split.
Qed.

(** The guard of [get_latest_version] does what the specification asks
    for every name that does not end in a line feed: a name outside the
    pattern makes it return [None] at once, with no call to the
    index. *)
Lemma get_latest_version_rejects_invalid (w : World) (pkg : string) (t : trace) :
  spec_valid_name pkg = false ->
  (forall s', pkg = s' ++ nl -> spec_valid_name s' = false) ->
  get_latest_version w pkg t = (Ok VNone, t).
Proof.
  intros H1 H2. apply get_latest_version_rejected.
  destruct (matches _VALID_PACKAGE_NAME pkg) eqn:E; [| reflexivity].
  apply valid_package_name_refines in E.
  destruct E as [E | (s' & E & Hs)]; [congruence |].
  rewrite (H2 s' E) in Hs. discriminate.
Qed.

(** ** The order of the version model

    Release segments compare as numbers: as strings "1.10.0" sorts
    before "1.9.0", as versions it does not. *)
Lemma release_segments_compare_as_numbers :
  String.compare "1.10.0" "1.9.0" = Lt
  /\ (exists a b, Pep440.parse "1.10.0" = Some a /\ Pep440.parse "1.9.0" = Some b
                  /\ Pep440.lt a b = false /\ Pep440.lt b a = true)
  /\ (exists a b, Pep440.parse "2.0.0" = Some a /\ Pep440.parse "2.0" = Some b
                  /\ Pep440.lt a b = false /\ Pep440.lt b a = false).
Proof.
  split; [reflexivity |]. split; do 2 eexists; repeat split; vm_compute; reflexivity.
Qed.

(** * Further properties of the script *)

(** ** What a successful match of [_REQUIREMENT_LINE] captured *)

Lemma orelse_result {A} (a b : option A) (c : A) :
  orelse a b = Some c -> a = Some c \/ b = Some c.
Proof. destruct a; simpl; intros H; [left | right]; exact H. Qed.

(** A star of a class, greedy or lazy, hands to its continuation the
    subject less a prefix made of characters of the class. *)
Lemma star_class_result greedy (p : ascii -> bool) k :
  forall n st c,
    star_loop greedy (rmatch (Cls p)) k n st = Some c ->
    exists u v, rest st = u ++ v /\ all_chars p u = true
                /\ k (MState (pos st + String.length u) v (groups st)) = Some c.
Proof.
  assert (Here : forall st c, k st = Some c ->
            exists u v, rest st = u ++ v /\ all_chars p u = true
              /\ k (MState (pos st + String.length u) v (groups st)) = Some c).
  { intros st c H. exists EmptyString, (rest st). repeat split.
    cbn [String.length]. now rewrite Nat.add_0_r, mstate_eta. }
  induction n as [| n IH]; intros st c H.
  - apply Here. destruct greedy; simpl in H; [exact H |].
    now destruct (k st).
  - rewrite star_loop_S in H. cbv zeta in H.
    assert (Again : forall c0,
              rmatch (Cls p) st (fun st' =>
                if Nat.ltb (String.length (rest st')) (String.length (rest st))
                then star_loop greedy (rmatch (Cls p)) k n st' else None) = Some c0 ->
              exists u v, rest st = u ++ v /\ all_chars p u = true
                /\ k (MState (pos st + String.length u) v (groups st)) = Some c0).
    { intros c0 E. destruct (rest st) as [| x s'] eqn:R;
        [cbn [rmatch] in E; rewrite R in E; discriminate E |].
      rewrite (rmatch_cls p st _ x s' R) in E.
      destruct (p x) eqn:Px; [| discriminate E].
      destruct (Nat.ltb _ _); [| discriminate E].
      apply IH in E. destruct E as (u & v & E & Hu & Hk). simpl in E.
      exists (String x u), v. repeat split.
      - simpl. now rewrite E.
      - simpl. now rewrite Px, Hu.
      - cbn [advance pos groups String.length] in *.
        now replace (pos st + S (String.length u))
          with (S (pos st) + String.length u) by lia. }
    destruct greedy; apply orelse_result in H; destruct H as [H | H];
      auto using Here.
Qed.

(** The name part of both patterns consumes a name of the
    specification. *)
Lemma name_body_result (g : nat) st k c :
  rmatch (name_body g) st k = Some c ->
  exists name tl grp,
    rest st = name ++ tl /\ spec_valid_name name = true
    /\ k (MState (pos st + String.length name) tl grp) = Some c.
Proof.
  intros H.
  destruct (rest st) as [| x s'] eqn:R.
  { unfold name_body in H. cbn [rmatch] in H. rewrite R in H. discriminate H. }
  set (st1 := advance st s').
  set (k' := fun st' : mstate => k (close_group g st1 st')).
  assert (E : rmatch (name_body g) st k
              = if is_alnum x
                then orelse (star_loop true (rmatch (Cls is_name_char))
                               (fun s => rmatch (Cls is_alnum) s k')
                               (String.length (rest st1)) st1)
                            (k st1)
                else None).
  { unfold name_body. cbn [rmatch Opt]. rewrite R. reflexivity. }
  rewrite E in H. clear E.
  destruct (is_alnum x) eqn:Hx; [| discriminate H].
  apply orelse_result in H. destruct H as [H | H].
  - apply star_class_result in H. destruct H as (u & v & Eu & Hu & H).
    cbn [rest st1 advance] in Eu.
    destruct v as [| d v'];
      [cbn [rmatch rest] in H; discriminate H |].
    rewrite (rmatch_cls is_alnum
               (MState (pos st1 + String.length u) (String d v') (groups st1))
               k' d v' eq_refl) in H.
    destruct (is_alnum d) eqn:Hd; [| discriminate H].
    unfold k' in H. cbn [close_group advance pos rest groups st1] in H.
    exists (String x (u ++ String d EmptyString)), v'. eexists. repeat split.
    + simpl. now rewrite Eu, append_assoc.
    + apply spec_valid_name_iff. exists x, (u ++ String d EmptyString).
      repeat split; [exact Hx |]. right. exists u, d. now repeat split.
    + replace (pos st + String.length (String x (u ++ String d EmptyString)))
        with (S (S (pos st) + String.length u))
        by (simpl; rewrite length_append; simpl; lia).
      exact H.
  - exists (String x EmptyString), s', (groups st). repeat split.
    + exact Hx.
    + cbn [String.length]. now replace (pos st + 1) with (S (pos st)) by lia.
Qed.

(** Whenever [_REQUIREMENT_LINE] matches, group 1 is a name of the
    specification that the line starts with. *)
Lemma requirement_line_result (s : string) (m : caps) :
  re_match _REQUIREMENT_LINE s = Some m ->
  exists name tl, s = name ++ tl /\ spec_valid_name name = true
                  /\ group m 1 = Some name.
Proof.
  intros H.
  set (tail := Seq (Opt extras) (Star true (Cls (fun c => negb (Ascii.eqb c ";"))))).
  set (st0 := MState 0 s []).
  change (re_match _REQUIREMENT_LINE s)
    with (rmatch (name_body 2) st0
            (fun st' => rmatch tail (close_group 1 st0 st') final)) in H.
  apply name_body_result in H. destruct H as (name & tl & grp & E & Hn & H).
  cbn [rest st0] in E.
  destruct (requirement_tail_total
              (close_group 1 st0 (MState (pos st0 + String.length name) tl grp)))
    as (c & Ec & G).
  unfold tail in H. rewrite Ec in H. inversion H; subst c.
  exists name, tl. repeat split; [exact E | exact Hn |].
  rewrite G. cbn [close_group groups pos rest group Nat.eqb st0].
  rewrite Nat.add_0_l, Nat.sub_0_r, E. now rewrite take_append.
Qed.

(** A line that starts with an alphanumeric character always
    matches. *)
Lemma requirement_line_matches (c : ascii) (s : string) :
  is_alnum c = true -> re_match _REQUIREMENT_LINE (String c s) <> None.
Proof.
  intros Hc.
  set (tail := Seq (Opt extras) (Star true (Cls (fun c => negb (Ascii.eqb c ";"))))).
  set (st0 := MState 0 (String c s) []).
  set (st1 := advance st0 s).
  set (k1 := fun st' : mstate => rmatch tail (close_group 1 st0 st') final).
  set (k2 := fun st' : mstate => k1 (close_group 2 st1 st')).
  change (re_match _REQUIREMENT_LINE (String c s))
    with (if is_alnum c
          then orelse (star_loop true (rmatch (Cls is_name_char))
                         (fun s => rmatch (Cls is_alnum) s k2)
                         (String.length (rest st1)) st1)
                      (k1 st1)
          else None).
  rewrite Hc. apply orelse_some. right. unfold k1.
  destruct (requirement_tail_total (close_group 1 st0 st1)) as (m & E & _).
  unfold tail. rewrite E. discriminate.
Qed.

(** ** The names read from a manifest *)

Lemma read_packages_cons (line : string) (lines : list string) :
  read_packages (line :: lines) []
  = (read_packages [line] [] ++ read_packages lines [])%list.
Proof.
  change (line :: lines) with ([line] ++ lines)%list.
  rewrite read_packages_app. apply read_packages_acc.
Qed.

Lemma starts_requirement_false (line : string) :
  starts_requirement line = false -> read_packages [line] [] = [].
Proof.
  unfold starts_requirement. intros H.
  destruct (PyStr.strip line) as [| c s] eqn:E.
  - now apply read_packages_blank.
  - now apply (read_packages_other line c s).
Qed.

(** X1. A manifest line whose stripped text begins with an
    alphanumeric character always yields exactly one package name; the
    name is a prefix of the stripped line and has the shape of a
    package name (starts and ends with an alphanumeric, with only
    [A-Za-z0-9._-] in between). *)
Theorem requirement_line_yields_valid_name (line : string) :
  starts_requirement line = true ->
  exists name tl,
    PyStr.strip line = name ++ tl
    /\ spec_valid_name name = true
    /\ read_packages [line] [] = [Some name].
Proof.
  unfold starts_requirement. intros H.
  destruct (PyStr.strip line) as [| c s] eqn:E; [discriminate H |].
  destruct (re_match _REQUIREMENT_LINE (String c s)) as [m |] eqn:Em;
    [| now elim (requirement_line_matches c s H)].
  destruct (requirement_line_result _ _ Em) as (name & tl & En & Hn & G).
  exists name, tl. repeat split; [exact En | exact Hn |].
  assert (B : (String.eqb (String c s) EmptyString
               || PyStr.startswith "#" (String c s)) = false).
  { cbn [String.eqb orb PyStr.startswith].
    destruct (Ascii.eqb_spec "#" c) as [<- | _]; [discriminate H | reflexivity]. }
  cbn [read_packages]. rewrite E, B, Em, G. reflexivity.
Qed.

Lemma requirement_line_yields_valid_name_witness :
  exists name tl,
    PyStr.strip ("  Flask-SQLAlchemy [mysql] ~= 3.0" ++ nl) = name ++ tl
    /\ spec_valid_name name = true
    /\ read_packages ["  Flask-SQLAlchemy [mysql] ~= 3.0" ++ nl] [] = [Some name].
Proof.
  apply (requirement_line_yields_valid_name ("  Flask-SQLAlchemy [mysql] ~= 3.0" ++ nl)).
  reflexivity.
Defined.

Lemma read_packages_line_cases (line : string) :
  read_packages [line] [] = []
  \/ exists name, read_packages [line] [] = [Some name]
                  /\ spec_valid_name name = true.
Proof.
  cbn [read_packages]. destruct (_ || _); [now left |].
  destruct (re_match _REQUIREMENT_LINE (PyStr.strip line)) as [m |] eqn:Em;
    [| now left].
  destruct (requirement_line_result _ _ Em) as (name & tl & _ & Hn & G).
  right. exists name. rewrite G. now split.
Qed.

(** X2. Whatever the manifest holds, every entry the reader collects
    is a non-empty name of package-name shape that
    [_VALID_PACKAGE_NAME] accepts (so neither [if package:] nor the
    guard of [get_latest_version] ever drops an extracted name), and no
    line contributes more than one entry. *)
Theorem extracted_names_are_valid (lines : list string) :
  Forall (fun p => exists name, p = Some name
                     /\ truthy p = Some name
                     /\ spec_valid_name name = true
                     /\ matches _VALID_PACKAGE_NAME name = true)
         (read_packages lines [])
  /\ List.length (read_packages lines []) <= List.length lines.
Proof.
  induction lines as [| line lines [IHf IHl]]; [split; [constructor | simpl; lia] |].
  rewrite read_packages_cons.
  destruct (read_packages_line_cases line) as [E | (name & E & Hn)]; rewrite E.
  - split; [exact IHf | simpl; lia].
  - split; [| simpl; lia]. constructor; [| exact IHf].
    exists name. repeat split; [| exact Hn |].
    + destruct name; [discriminate Hn | reflexivity].
    + apply valid_package_name_refines. now left.
Qed.

(** X3. The reader treats lines independently: the names of two
    manifests read one after the other are the names of the first
    followed by the names of the second. *)
Theorem read_packages_concat (lines1 lines2 : list string) :
  read_packages (lines1 ++ lines2) []
  = (read_packages lines1 [] ++ read_packages lines2 [])%list.
Proof.
  rewrite read_packages_app. apply read_packages_acc.
Qed.

Section ManifestRuns.

Context {VL : VersionLib}.
Variable w : World.

(** X4. A manifest in which no line starts, after stripping, with an
    alphanumeric character (an empty file, or only blank lines,
    comments and option lines) gives no result: the file is opened and
    nothing else happens, neither a lookup nor a printed line. *)
Theorem check_requirements_file_no_requirements path upd t text :
  open_text w t path = Ok text ->
  Forall (fun line => starts_requirement line = false) (PyStr.file_lines text) ->
  check_requirements_file w path upd t = (Ok [], (t ++ [OpenFile path])%list).
Proof.
  intros Ho Hl. rewrite (check_requirements_file_opened w path upd t text Ho).
  assert (E : read_packages (PyStr.file_lines text) [] = []).
  { induction Hl as [| line lines Hline _ IH]; [reflexivity |].
    rewrite read_packages_cons, (starts_requirement_false line Hline), IH.
    reflexivity. }
  rewrite E. reflexivity.
Qed.

(** The loop over the packages, cut in two. *)
Lemma check_each_app (ps1 ps2 : list (option string)) upd :
  forall acc t,
    check_each w (ps1 ++ ps2) upd acc t
    = match check_each w ps1 upd acc t with
      | (Ok rs, t1) => check_each w ps2 upd rs t1
      | (Raise e, t1) => (Raise e, t1)
      end.
Proof.
  induction ps1 as [| p ps1 IH]; intros acc t; [reflexivity |].
  cbn [app check_each]. destruct (truthy p) as [name |]; [| apply IH].
  unfold bind. destruct (check_package w name upd t) as [[r | e] t1]; [apply IH |].
  reflexivity.
Qed.

Lemma check_package_name pkg upd t r t' :
  check_package w pkg upd t = (Ok r, t') -> package r = pkg.
Proof.
  unfold check_package, bind, new_Version, print, ret, raise. intros H.
  repeat match type of H with
         | context [match ?x with _ => _ end] => destruct x
         end;
    try discriminate H; now inversion H.
Qed.

(** X5. When the loop over the extracted names ends normally, it has
    appended one result per name, in the order of the manifest and
    with repetitions kept: the [package] fields of the results are the
    names. *)
Theorem check_each_results_in_order (ps : list (option string)) upd :
  forall acc t rs t',
    check_each w ps upd acc t = (Ok rs, t') ->
    map package rs = (map package acc ++ package_names ps)%list.
Proof.
  induction ps as [| p ps IH]; intros acc t rs t' H.
  - cbn in H. inversion H; subst. cbn. now rewrite app_nil_r.
  - cbn [check_each] in H. unfold package_names. cbn [flat_map].
    fold (package_names ps).
    destruct (truthy p) as [name |].
    + unfold bind in H.
      destruct (check_package w name upd t) as [[r | e] t1] eqn:E;
        [| discriminate H].
      rewrite (IH _ _ _ _ H), map_app. cbn [map].
      rewrite (check_package_name _ _ _ _ _ E), <- app_assoc. reflexivity.
    + apply (IH _ _ _ _ H).
Qed.

(** X6. An exception that leaves [check_package] for one name of the
    manifest ends the whole run: [main] raises the same exception with
    the trace of the failed check, so the names after it are never
    looked up and no summary is printed. *)
Theorem main_aborts_on_first_error path upd t text ps1 p ps2 name rs t1 e t2 :
  let t0 := (t ++ [Print "Checking for updates..."])%list in
  open_text w t0 path = Ok text ->
  read_packages (PyStr.file_lines text) [] = (ps1 ++ p :: ps2)%list ->
  truthy p = Some name ->
  check_each w ps1 upd [] (t0 ++ [OpenFile path])%list = (Ok rs, t1) ->
  check_package w name upd t1 = (Raise e, t2) ->
  check_requirements_file w path upd t0 = (Raise e, t2)
  /\ main w (MkArgs None (Some path) upd) t = (Raise e, t2).
Proof.
  intros t0 Ho Hp Hn H1 H2.
  assert (E : check_requirements_file w path upd t0 = (Raise e, t2)).
  { rewrite (check_requirements_file_opened w path upd t0 text Ho), Hp.
    rewrite check_each_app, H1. cbn [check_each]. rewrite Hn.
    unfold bind. now rewrite H2. }
  split; [exact E |].
  unfold main, collect. cbn [arg_package arg_requirements arg_update truthy].
  unfold bind at 1. unfold bind at 1. unfold print at 1. fold t0.
  now rewrite E.
Qed.

End ManifestRuns.

Lemma check_requirements_file_no_requirements_witness :
  let text := "# tools only" ++ nl ++ nl ++ "-r base.txt" ++ nl ++ "   " in
  check_requirements_file (sample_world "1.0" "2.0" text) "dev.txt" true []
  = (Ok [], [OpenFile "dev.txt"]).
Proof.
  intros text.
  apply (check_requirements_file_no_requirements
           (sample_world "1.0" "2.0" text) "dev.txt" true [] text).
  - reflexivity.
  - vm_compute. repeat constructor.
Defined.

Lemma check_each_results_in_order_witness :
  let w := sample_world "1.0" "1.0" EmptyString in
  let r := fun name => MkResult name (Some "1.0") (VStr "1.0") false false in
  map package [r "b"; r "a"; r "b"] = ["b"; "a"; "b"].
Proof.
  intros w r.
  apply (check_each_results_in_order w [Some "b"; Some "a"; Some "b"] false [] []
           [r "b"; r "a"; r "b"]
           [PipShow "b"; UrlOpen "https://pypi.org/pypi/b/json";
            Print "  b: 1.0 (up to date)";
            PipShow "a"; UrlOpen "https://pypi.org/pypi/a/json";
            Print "  a: 1.0 (up to date)";
            PipShow "b"; UrlOpen "https://pypi.org/pypi/b/json";
            Print "  b: 1.0 (up to date)"]).
  vm_compute. reflexivity.
Defined.

Lemma main_aborts_on_first_error_witness :
  let text := "requests" ++ nl ++ "flask" ++ nl in
  let w := sample_world "not-a-version" "1.0" text in
  let t2 := [Print "Checking for updates..."; OpenFile "reqs.txt";
             PipShow "requests"; UrlOpen "https://pypi.org/pypi/requests/json"] in
  check_requirements_file w "reqs.txt" false [Print "Checking for updates..."]
  = (Raise InvalidVersion, t2)
  /\ main w (MkArgs None (Some "reqs.txt") false) [] = (Raise InvalidVersion, t2).
Proof.
  intros text w t2.
  apply (main_aborts_on_first_error w "reqs.txt" false [] text
           [] (Some "requests") [Some "flask"] "requests" []
           [Print "Checking for updates..."; OpenFile "reqs.txt"]
           InvalidVersion t2);
    vm_compute; reflexivity.
Defined.

(** ** More on [get_latest_version] *)

Lemma spec_valid_name_chars (name : string) :
  spec_valid_name name = true -> all_chars is_name_char name = true.
Proof.
  intros H. apply spec_valid_name_iff in H.
  destruct H as (c & t & -> & Hc & [-> | (u & d & -> & Hu & Hd)]); simpl.
  - now rewrite (alnum_is_name_char _ Hc).
  - rewrite (alnum_is_name_char _ Hc), all_chars_app, Hu. simpl.
    now rewrite (alnum_is_name_char _ Hd).
Qed.

Lemma all_chars_weaken (p q : ascii -> bool) (s : string) :
  (forall c, p c = true -> q c = true) ->
  all_chars p s = true -> all_chars q s = true.
Proof.
  intros Hpq. induction s as [| c s IH]; simpl; [reflexivity |].
  intros H. apply andb_prop in H. destruct H as [Hc Hs].
  now rewrite (Hpq _ Hc), IH.
Qed.

Section LatestVersionMore.

Variable w : World.

(** X7. The guard of [get_latest_version], exactly.  A name reaches
    the index if and only if it has the shape of a package name,
    possibly with one line feed after it; then there is exactly one
    request, to the URL of that name, and the name holds nothing but
    [A-Za-z0-9._-] (and that line feed), so no slash, question mark or
    blank gets into the URL.  Every other name gets [None] with no
    request at all. *)
Theorem get_latest_version_guard pkg t :
  (exists name,
      spec_valid_name name = true /\ (pkg = name \/ pkg = name ++ nl)
      /\ all_chars guarded_char pkg = true
      /\ exists out, get_latest_version w pkg t
                     = (out, (t ++ [UrlOpen (index_url pkg)])%list))
  \/ ((forall name, spec_valid_name name = true -> pkg <> name /\ pkg <> name ++ nl)
      /\ get_latest_version w pkg t = (Ok VNone, t)).
Proof.
  destruct (matches _VALID_PACKAGE_NAME pkg) eqn:M.
  - left. pose proof (proj1 (valid_package_name_refines pkg) M) as H.
    assert (G : forall c, is_name_char c = true -> guarded_char c = true)
      by (intros c Hc; unfold guarded_char; now rewrite Hc).
    destruct H as [H | (name & E & H)].
    + exists pkg. repeat split; [exact H | now left | |].
      * apply (all_chars_weaken _ _ _ G), spec_valid_name_chars, H.
      * now apply get_latest_version_accepted.
    + exists name. repeat split; [exact H | now right | |].
      * subst pkg. rewrite all_chars_app.
        rewrite (all_chars_weaken _ _ _ G (spec_valid_name_chars _ H)).
        reflexivity.
      * now apply get_latest_version_accepted.
  - right. split; [| now apply get_latest_version_rejected].
    intros name Hn. split; intros E.
    + assert (M' : matches _VALID_PACKAGE_NAME pkg = true)
        by (apply valid_package_name_refines; left; now subst).
      congruence.
    + assert (M' : matches _VALID_PACKAGE_NAME pkg = true)
        by (apply valid_package_name_refines; right; now exists name).
      congruence.
Qed.

(** X9. When the index serves an object with an "info" object that
    has a "version" member, [get_latest_version] returns that member
    as it is, after exactly one request; nothing checks that the member
    is a string. *)
Theorem get_latest_version_found pkg t items info v :
  matches _VALID_PACKAGE_NAME pkg = true ->
  fetch_json w t (index_url pkg) = Ok (VDict items) ->
  dict_get "info" items = Some (VDict info) ->
  dict_get "version" info = Some v ->
  get_latest_version w pkg t = (Ok v, (t ++ [UrlOpen (index_url pkg)])%list).
Proof.
  intros Hm Hf Hi Hv. unfold get_latest_version. rewrite Hm. cbn [negb].
  unfold try_except, bind, call, ret, getitem. now rewrite Hf, Hi, Hv.
Qed.

(** X10. An exception that [urlopen], [read], [decode] or
    [json.loads] raises and that is no [URLError], [JSONDecodeError] or
    [KeyError] is not absorbed: it leaves [get_latest_version], after
    the one request. *)
Theorem get_latest_version_propagates pkg t e :
  matches _VALID_PACKAGE_NAME pkg = true ->
  fetch_json w t (index_url pkg) = Raise e ->
  existsb (isinstance e) [URLError; JSONDecodeError; KeyError] = false ->
  get_latest_version w pkg t = (Raise e, (t ++ [UrlOpen (index_url pkg)])%list).
Proof.
  intros Hm Hf He. unfold get_latest_version. rewrite Hm. cbn [negb].
  unfold try_except, bind, call, ret. now rewrite Hf, He.
Qed.

End LatestVersionMore.

Lemma get_latest_version_handled_witness :
  let w := world_of (Ok (show_output "1.0")) (Ok tt) (Raise HTTPError) (Ok EmptyString) in
  get_latest_version w "no-such-package" []
  = (Ok VNone, [UrlOpen "https://pypi.org/pypi/no-such-package/json"]).
Proof.
  intros w. apply (get_latest_version_handled w "no-such-package" []).
  - vm_compute. reflexivity.
  - left. exists HTTPError. split; reflexivity.
Defined.

Lemma get_latest_version_found_witness :
  get_latest_version (sample_world "1.0" "2.31.0" EmptyString) "requests" []
  = (Ok (VStr "2.31.0"), [UrlOpen "https://pypi.org/pypi/requests/json"]).
Proof.
  apply (get_latest_version_found (sample_world "1.0" "2.31.0" EmptyString)
           "requests" [] [("info", VDict [("version", VStr "2.31.0")])]
           [("version", VStr "2.31.0")] (VStr "2.31.0"));
    reflexivity.
Defined.

Lemma get_latest_version_propagates_witness :
  let w := world_of (Ok (show_output "1.0")) (Ok tt)
                    (Raise (OtherError "TimeoutError")) (Ok EmptyString) in
  get_latest_version w "requests" []
  = (Raise (OtherError "TimeoutError"), [UrlOpen "https://pypi.org/pypi/requests/json"]).
Proof.
  intros w.
  apply (get_latest_version_propagates w "requests" [] (OtherError "TimeoutError"));
    reflexivity.
Defined.

(** ** More on [get_installed_version] *)

Lemma lstrip_head (s : string) :
  match PyStr.lstrip s with
  | String c _ => PyStr.is_space c = false
  | EmptyString => True
  end.
Proof.
  induction s as [| c s IH]; simpl; [exact I |].
  destruct (PyStr.is_space c) eqn:E; [exact IH | exact E].
Qed.

Lemma rstrip_last (s : string) :
  match last_char (PyStr.rstrip s) with
  | Some d => PyStr.is_space d = false
  | None => True
  end.
Proof.
  induction s as [| c s IH]; cbn [PyStr.rstrip]; [exact I |].
  destruct (PyStr.rstrip s) as [| y r].
  - destruct (PyStr.is_space c) eqn:E; [exact I | exact E].
  - exact IH.
Qed.

Lemma strip_trimmed (s : string) : trimmed (PyStr.strip s) = true.
Proof.
  unfold PyStr.strip. pose proof (lstrip_head s) as H.
  destruct (PyStr.lstrip s) as [| c s']; [reflexivity |].
  destruct (rstrip_cons_nonspace c s' H) as (s'' & E).
  pose proof (rstrip_last (String c s')) as L. rewrite E in *.
  unfold trimmed. cbn [first_char].
  destruct (last_char (String c s'')) as [d |]; [| reflexivity].
  now rewrite H, L.
Qed.

Lemma find_version_stripped (lines : list string) (v : string) :
  find_version lines = Some v -> exists x, v = PyStr.strip x.
Proof.
  induction lines as [| l lines IH]; cbn [find_version]; [discriminate |].
  destruct (PyStr.startswith "Version:" l); [| exact IH].
  destruct (snd (PyStr.split_once ":" l)) as [x |]; [| discriminate].
  intros H. inversion H. now exists x.
Qed.

Lemma find_version_first (before after : list string) (v : string) :
  Forall (fun l => PyStr.startswith "Version:" l = false) before ->
  find_version (before ++ ("Version:" ++ v)%string :: after) = Some (PyStr.strip v).
Proof.
  induction 1 as [| l before Hl _ IH]; cbn [app find_version].
  - reflexivity.
  - now rewrite Hl.
Qed.

Section InstalledVersionMore.

Variable w : World.

(** X11. From the output of [pip show], [get_installed_version]
    returns what follows "Version:" on the first line that begins with
    it, with the white space around it removed; lines after it do not
    matter. *)
Theorem get_installed_version_first_version_line pkg t out before v after :
  pip_show w t pkg = Ok out ->
  PyStr.splitlines out = (before ++ ("Version:" ++ v)%string :: after)%list ->
  Forall (fun l => PyStr.startswith "Version:" l = false) before ->
  get_installed_version w pkg t
  = (Ok (Some (PyStr.strip v)), (t ++ [PipShow pkg])%list).
Proof.
  intros Hs Hl Hb. unfold get_installed_version, try_except, bind, call, ret.
  rewrite Hs, Hl, (find_version_first before after v Hb). reflexivity.
Qed.

(** X13. A version that [get_installed_version] returns has no white
    space at its beginning or its end (it may be empty, when the
    "Version:" line holds nothing else). *)
Theorem get_installed_version_trimmed pkg t v t' :
  get_installed_version w pkg t = (Ok (Some v), t') -> trimmed v = true.
Proof.
  unfold get_installed_version, try_except, bind, call, ret. intros H.
  destruct (pip_show w t pkg) as [out | e].
  - inversion H as [[Hv Ht]].
    destruct (find_version_stripped _ _ Hv) as (x & ->). apply strip_trimmed.
  - destruct (existsb _ _); discriminate H.
Qed.

End InstalledVersionMore.

Lemma get_installed_version_first_version_line_witness :
  let out := "Name: demo" ++ nl ++ "Version:  2.31.0 " ++ String "013" nl
             ++ "Requires: x" ++ nl ++ "Version: 9.9" ++ nl in
  get_installed_version
    (world_of (Ok out) (Ok tt) (Ok VNone) (Ok EmptyString)) "demo" []
  = (Ok (Some (PyStr.strip "  2.31.0 ")), [PipShow "demo"]).
Proof.
  intros out.
  apply (get_installed_version_first_version_line
           (world_of (Ok out) (Ok tt) (Ok VNone) (Ok EmptyString)) "demo" [] out
           ["Name: demo"] "  2.31.0 " ["Requires: x"; "Version: 9.9"]).
  - reflexivity.
  - vm_compute. reflexivity.
  - repeat constructor.
Defined.


Lemma get_installed_version_trimmed_witness :
  trimmed "1.2.0" = true.
Proof.
  apply (get_installed_version_trimmed (sample_world " 1.2.0  " "1.3.0" EmptyString)
           "demo" [] "1.2.0" [PipShow "demo"]).
  vm_compute. reflexivity.
Defined.

(** ** More on [check_package] and [main] *)

Section CheckPackageMore.

Context {VL : VersionLib}.
Variable w : World.

Lemma get_latest_version_trace pkg t out t' :
  get_latest_version w pkg t = (out, t') ->
  t' = t \/ t' = (t ++ [UrlOpen (index_url pkg)])%list.
Proof.
  intros H. destruct (matches _VALID_PACKAGE_NAME pkg) eqn:M.
  - right. destruct (get_latest_version_accepted w pkg t M) as (o & E).
    rewrite E in H. now inversion H.
  - left. rewrite (get_latest_version_rejected w pkg t M) in H. now inversion H.
Qed.

(** X14. When the installed version is known and the latest version is
    not, [check_package] returns the result with the installed version,
    no latest version and both flags false, and prints that it could
    not fetch the latest version.  [Version] is not called on this
    path, so the installed string need not be a version, and no upgrade
    is tried. *)
Theorem check_package_latest_unknown pkg upd t i t1 t2 :
  get_installed_version w pkg t = (Ok (Some i), t1) ->
  get_latest_version w pkg t1 = (Ok VNone, t2) ->
  check_package w pkg upd t
  = (Ok (MkResult pkg (Some i) VNone false false),
     (t2 ++ [Print ("  " ++ pkg ++ ": could not fetch latest version")])%list).
Proof.
  intros H1 H2. unfold check_package.
  rewrite (bind_ok _ _ _ _ _ H1). cbv beta iota.
  rewrite (bind_ok _ _ _ _ _ H2). reflexivity.
Qed.

(** X15. Every call that [check_package] makes to the outside is
    about its own package: the first event is [pip show] for it, a
    request goes to the URL of that package only, and [pip install] is
    run for that package only and only when [do_update] is set;
    no file is opened.  This holds whether the check returns or
    raises. *)
Theorem check_package_footprint pkg upd t out t' :
  check_package w pkg upd t = (out, t') ->
  exists rest,
    t' = (t ++ PipShow pkg :: rest)%list
    /\ (forall p, In (PipShow p) rest -> False)
    /\ (forall u, In (UrlOpen u) rest -> u = index_url pkg)
    /\ (forall p, In (PipInstall p) rest -> p = pkg /\ upd = true)
    /\ (forall f, In (OpenFile f) rest -> False).
Proof.
  intros H.
  destruct (get_installed_version w pkg t) as [oi t1] eqn:E1.
  pose proof (get_installed_version_trace w _ _ _ _ E1) as Ht1. subst t1.
  unfold check_package in H. unfold bind at 1 in H. rewrite E1 in H.
  assert (Done : forall (added : list event),
            t' = ((t ++ [PipShow pkg]) ++ added)%list ->
            (forall p, In (PipShow p) added -> False) ->
            (forall u, In (UrlOpen u) added -> u = index_url pkg) ->
            (forall p, In (PipInstall p) added -> p = pkg /\ upd = true) ->
            (forall f, In (OpenFile f) added -> False) ->
            exists rest,
              t' = (t ++ PipShow pkg :: rest)%list
              /\ (forall p, In (PipShow p) rest -> False)
              /\ (forall u, In (UrlOpen u) rest -> u = index_url pkg)
              /\ (forall p, In (PipInstall p) rest -> p = pkg /\ upd = true)
              /\ (forall f, In (OpenFile f) rest -> False)).
  { intros added -> A B C D. exists added. rewrite <- app_assoc.
    split; [reflexivity |]. split; [exact A |]. split; [exact B |].
    split; [exact C | exact D]. }
  destruct oi as [[i |] | e].
  - destruct (get_latest_version w pkg (t ++ [PipShow pkg])%list) as [ol t2] eqn:E2.
    unfold bind at 1 in H. rewrite E2 in H.
    pose proof (get_latest_version_trace _ _ _ _ E2) as Ht2.
    unfold update_package, new_Version, try_except, call, print, raise, ret, bind in H.
    cbv beta in H.
    repeat match type of H with
           | context [match ?x with _ => _ end] =>
               lazymatch x with
               | context [match _ with _ => _ end] => fail
               | _ => destruct x eqn:?
               end
           end;
      inversion H; subst; clear H;
      destruct Ht2 as [-> | ->];
      (eapply Done;
       [rewrite <- ?app_assoc; cbn [app]; reflexivity
       | cbn; intros; intuition (try discriminate; try congruence) ..]).
  - unfold bind, print, ret in H. inversion H; subst.
    eapply Done; [reflexivity | cbn; intros; intuition discriminate ..].
  - inversion H; subst.
    eapply (Done []); [now rewrite app_nil_r | cbn; intros; intuition ..].
Qed.

(** X16. With an update available and [do_update] set, the [updated]
    flag says whether [pip install] ended with exit status zero.  A
    non-zero exit is reported by the line "update failed" and is not an
    error of [check_package]: the result still says that an update is
    available. *)
Theorem check_package_upgrade_outcome pkg t i t1 l t2 vi vl :
  get_installed_version w pkg t = (Ok (Some i), t1) ->
  get_latest_version w pkg t1 = (Ok (VStr l), t2) ->
  Version i = Some vi ->
  Version l = Some vl ->
  version_lt vi vl = true ->
  let t3 := (t2 ++ [Print ("  " ++ pkg ++ ": " ++ i ++ " -> " ++ l
                           ++ " (update available)")])%list in
  (pip_install w t3 pkg = Ok tt ->
     check_package w pkg true t
     = (Ok (MkResult pkg (Some i) (VStr l) true true),
        (t3 ++ [PipInstall pkg;
                Print ("  " ++ pkg ++ ": updated successfully to " ++ l)])%list))
  /\ (pip_install w t3 pkg = Raise CalledProcessError ->
        check_package w pkg true t
        = (Ok (MkResult pkg (Some i) (VStr l) true false),
           (t3 ++ [PipInstall pkg; Print ("  " ++ pkg ++ ": update failed")])%list)).
Proof.
  intros H1 H2 Hi Hl Hlt t3.
  pose proof (check_package_compared w pkg true t i t1 l t2 vi vl H1 H2 Hi Hl) as E.
  cbv zeta in E. rewrite Hlt in E. fold t3 in E.
  split; intros P; rewrite P in E; exact E.
Qed.


(** X18. With [--package NAME], [main] checks that one package and
    nothing else, whatever [--requirements] holds, and its summary
    reports one update or none according to the result. *)
Theorem main_single_package name req upd t r t1 :
  name <> EmptyString ->
  check_package w name upd (t ++ [Print "Checking for updates..."])%list = (Ok r, t1) ->
  main w (MkArgs (Some name) req upd) t
  = (Ok tt,
     (t1 ++ (if update_available r
             then Print (nl ++ "1 update(s) available.")
                  :: (if upd then [] else [Print "Run with --update to apply updates."])
             else [Print (nl ++ "All packages are up to date.")]))%list).
Proof.
  intros Hn H. unfold main, collect.
  cbn [arg_package arg_requirements arg_update].
  assert (T : truthy (Some name) = Some name) by (destruct name; [now elim Hn | reflexivity]).
  rewrite T. unfold bind at 1. unfold bind at 1. unfold print at 1.
  unfold bind at 1. rewrite H. unfold ret at 1.
  unfold summarize. cbn [count_updates].
  destruct (update_available r); cbn [Nat.add Nat.eqb negb].
  - unfold bind, print, ret. destruct upd; cbn; [reflexivity |].
    now rewrite <- app_assoc.
  - reflexivity.
Qed.

(** X19. When [--package] is given as the empty string, the test
    [if args.package:] fails and [main] takes the manifest branch with
    no path: after the first line it raises [TypeError], and nothing is
    checked. *)
Theorem main_empty_package_name args t :
  truthy (arg_package args) = None ->
  arg_requirements args = None ->
  main w args t = (Raise TypeError, (t ++ [Print "Checking for updates..."])%list).
Proof.
  intros Hp Hr. unfold main, collect. rewrite Hp, Hr. reflexivity.
Qed.

End CheckPackageMore.

Lemma check_package_latest_unknown_witness :
  let w := world_of (Ok (show_output "unreleased build")) (Ok tt) (Raise URLError)
                    (Ok EmptyString) in
  check_package w "demo" true []
  = (Ok (MkResult "demo" (Some "unreleased build") VNone false false),
     [PipShow "demo"; UrlOpen "https://pypi.org/pypi/demo/json";
      Print "  demo: could not fetch latest version"]).
Proof.
  intros w.
  apply (check_package_latest_unknown w "demo" true [] "unreleased build"
           [PipShow "demo"]
           [PipShow "demo"; UrlOpen "https://pypi.org/pypi/demo/json"]);
    vm_compute; reflexivity.
Defined.

Lemma check_package_footprint_witness :
  let w := sample_world "1.2.0" "1.3.0" EmptyString in
  exists rest,
    [PipShow "requests"; UrlOpen "https://pypi.org/pypi/requests/json";
     Print "  requests: 1.2.0 -> 1.3.0 (update available)";
     PipInstall "requests";
     Print "  requests: updated successfully to 1.3.0"]
    = ([] ++ PipShow "requests" :: rest)%list
    /\ (forall p, In (PipShow p) rest -> False)
    /\ (forall u, In (UrlOpen u) rest -> u = index_url "requests")
    /\ (forall p, In (PipInstall p) rest -> p = "requests" /\ true = true)
    /\ (forall f, In (OpenFile f) rest -> False).
Proof.
  intros w.
  apply (check_package_footprint w "requests" true []
           (Ok (MkResult "requests" (Some "1.2.0") (VStr "1.3.0") true true))).
  vm_compute. reflexivity.
Defined.

Lemma check_package_upgrade_outcome_witness :
  let w := world_of (Ok (show_output "1.2.0")) (Raise CalledProcessError)
                    (Ok (index_reply "1.3.0")) (Ok EmptyString) in
  check_package w "requests" true []
  = (Ok (MkResult "requests" (Some "1.2.0") (VStr "1.3.0") true false),
     [PipShow "requests"; UrlOpen "https://pypi.org/pypi/requests/json";
      Print "  requests: 1.2.0 -> 1.3.0 (update available)";
      PipInstall "requests"; Print "  requests: update failed"]).
Proof.
  intros w.
  assert (H1 : get_installed_version w "requests" []
               = (Ok (Some "1.2.0"), [PipShow "requests"]))
    by (vm_compute; reflexivity).
  assert (H2 : get_latest_version w "requests" [PipShow "requests"]
               = (Ok (VStr "1.3.0"),
                  [PipShow "requests"; UrlOpen "https://pypi.org/pypi/requests/json"]))
    by (vm_compute; reflexivity).
  assert (Hi : Version "1.2.0"
               = Some (Pep440.MkVersion 0 [1; 2; 0]%N None None None None))
    by (vm_compute; reflexivity).
  assert (Hl : Version "1.3.0"
               = Some (Pep440.MkVersion 0 [1; 3; 0]%N None None None None))
    by (vm_compute; reflexivity).
  apply (proj2 (check_package_upgrade_outcome w "requests" [] _ _ _ _ _ _
                  H1 H2 Hi Hl ltac:(vm_compute; reflexivity))).
  reflexivity.
Defined.


Lemma main_single_package_witness :
  let w := sample_world "1.2.0" "1.3.0" "flask" in
  main w (MkArgs (Some "requests") (Some "ignored.txt") true) []
  = (Ok tt,
     [Print "Checking for updates..."; PipShow "requests";
      UrlOpen "https://pypi.org/pypi/requests/json";
      Print "  requests: 1.2.0 -> 1.3.0 (update available)";
      PipInstall "requests";
      Print "  requests: updated successfully to 1.3.0";
      Print (nl ++ "1 update(s) available.")]).
Proof.
  intros w.
  apply (main_single_package w "requests" (Some "ignored.txt") true []
           (MkResult "requests" (Some "1.2.0") (VStr "1.3.0") true true)
           [Print "Checking for updates..."; PipShow "requests";
            UrlOpen "https://pypi.org/pypi/requests/json";
            Print "  requests: 1.2.0 -> 1.3.0 (update available)";
            PipInstall "requests";
            Print "  requests: updated successfully to 1.3.0"]).
  - discriminate.
  - vm_compute. reflexivity.
Defined.

Lemma main_empty_package_name_witness :
  main (sample_world "1.0" "1.0" EmptyString) (MkArgs (Some EmptyString) None true) []
  = (Raise TypeError, [Print "Checking for updates..."]).
Proof.
  apply (main_empty_package_name (sample_world "1.0" "1.0" EmptyString)
           (MkArgs (Some EmptyString) None true) []); reflexivity.
Defined.
